(** * PythonWikipedia: the retrieval engine of [main.py]

    A shallow embedding of the index-line codec ([split_index_parts],
    [parse_index_line]), the title predicates, and the [WikiDb] class
    ([__load_offset_map], [load_index], [__load_chunk], [load_article]),
    followed by the properties of the specification that concern them.

    Conventions of the embedding.
    - A Python [str] is a [string]; its characters are the code points
      U+0000..U+00FF (an [ascii] is read as such a code point). The
      smart-exact predicate is also given over texts of any code points
      ([PyText]), with [lower()] left open.
    - A Python [int] is a [Z]; a [dict] from int to int is a [gmap Z Z].
    - A raised exception is the [Raise] outcome of [Exc]; the exception
      classes are the constructors of [exn].
    - The two open files of a [WikiDb] carry their cursor; every method is a
      state transformer over the [WikiDb] that may raise. *)

From Stdlib Require Import ZArith Ascii String List Strings.Byte Sorting.Sorted.
From stdpp Require Import base tactics option list gmap strings.

Local Open Scope string_scope.
Local Open Scope Z_scope.

(** ** Exceptions *)

(** The exception classes the modelled code can raise, by the Python name. *)
Inductive exn : Type :=
| KeyError (key : Z)        (* offset_map[begin] on a missing key *)
| ValueError                (* int() on no integer literal, read() below -1 *)
| TypeError                 (* int(None) *)
| AttributeError            (* None.text *)
| StopIteration             (* next() on an exhausted iterator *)
| OSError                   (* seek to a negative position, bz2 data error *)
| UnicodeDecodeError        (* bytes.decode('utf-8') *)
| ParseError.               (* xml.etree.ElementTree.fromstring *)

Inductive Exc (A : Type) : Type :=
| OK (a : A)
| Raise (e : exn).
Arguments OK {A} a.
Arguments Raise {A} e.

Definition exc_bind {A B} (x : Exc A) (k : A -> Exc B) : Exc B :=
  match x with
  | OK a => k a
  | Raise e => Raise e
  end.

Definition exc_map {A B} (f : A -> B) (x : Exc A) : Exc B :=
  exc_bind x (fun a => OK (f a)).

(** ** Text primitives of Python used by the code *)

Module PyStr.

Definition len (s : string) : Z := Z.of_nat (String.length s).

Fixpoint take (n : nat) (s : string) : string :=
  match n, s with
  | S n', String c s' => String c (take n' s')
  | _, _ => EmptyString
  end.

Fixpoint drop (n : nat) (s : string) : string :=
  match n, s with
  | S n', String _ s' => drop n' s'
  | _, _ => s
  end.

(** Index normalisation of a slice bound: a negative bound counts from the
    end, and the result is clamped to [0, len]. *)
Definition clamp (length i : Z) : Z :=
  let j := if i <? 0 then i + length else i in
  Z.max 0 (Z.min length j).

(** [s[start:stop]]; [None] is an omitted bound. *)
Definition slice (s : string) (start stop : option Z) : string :=
  let lo := match start with Some i => clamp (len s) i | None => 0 end in
  let hi := match stop with Some i => clamp (len s) i | None => len s end in
  take (Z.to_nat (hi - lo)) (drop (Z.to_nat lo) s).

(** [s.find(c)] for a one-character needle: the lowest index, or -1. *)
Fixpoint find (c : ascii) (s : string) : Z :=
  match s with
  | EmptyString => -1
  | String a s' =>
      if Ascii.eqb a c then 0
      else let r := find c s' in if r <? 0 then -1 else r + 1
  end.

Definition code (c : ascii) : N := N_of_ascii c.

(** Upper-case letters of the range: A-Z, and U+00C0..U+00DE but U+00D7. *)
Definition is_upper (c : ascii) : bool :=
  let n := code c in
  ((65 <=? n) && (n <=? 90)
   || (192 <=? n) && (n <=? 222) && negb (n =? 215))%N.

Definition lower_char (c : ascii) : ascii :=
  if is_upper c then ascii_of_N (code c + 32) else c.

(** [s.lower()] *)
Fixpoint lower (s : string) : string :=
  match s with
  | EmptyString => EmptyString
  | String c s' => String (lower_char c) (lower s')
  end.

(** White space as [int()] strips it: U+0009..U+000D, U+0020, U+0085 and
    U+00A0 (the separators U+001C..U+001F are not stripped). *)
Definition is_space (c : ascii) : bool :=
  let n := code c in
  ((9 <=? n) && (n <=? 13) || (n =? 32) || (n =? 133) || (n =? 160))%N.

Definition is_digit (c : ascii) : bool :=
  let n := code c in ((48 <=? n) && (n <=? 57))%N.

Definition digit_value (c : ascii) : Z := Z.of_N (code c) - 48.

Fixpoint lstrip (s : string) : string :=
  match s with
  | String c s' => if is_space c then lstrip s' else s
  | EmptyString => EmptyString
  end.

Fixpoint all_space (s : string) : bool :=
  match s with
  | String c s' => is_space c && all_space s'
  | EmptyString => true
  end.

(** The digits of an integer literal, read left to right: digits, single
    underscores between digits, then only white space up to the end.
    [after_digit] tells whether the previous character was a digit. *)
Fixpoint int_digits (acc : Z) (after_digit : bool) (s : string) : option Z :=
  match s with
  | EmptyString => if after_digit then Some acc else None
  | String c s' =>
      if is_digit c then int_digits (10 * acc + digit_value c) true s'
      else if Ascii.eqb c "_" then
        if after_digit then int_digits acc false s' else None
      else if is_space c then
        if after_digit && all_space s' then Some acc else None
      else None
  end.

(** [int(s)] in base 10: surrounding white space, an optional sign, digits
    with optional single underscores. The interpreter's optional limit on
    the number of digits is not part of the model. *)
Definition int (s : string) : Exc Z :=
  let body := lstrip s in
  let '(negative, digits) :=
    match body with
    | String "-" r => (true, r)
    | String "+" r => (false, r)
    | _ => (false, body)
    end in
  match int_digits 0 false digits with
  | Some v => OK (if negative : bool then - v else v)
  | None => Raise ValueError
  end.

End PyStr.

(** ** The index-line codec *)

Record IndexEntry : Type := mkIndexEntry {
  file_offset : Z;
  page_id : Z;
  article_name : string
}.

(** [end = line.find(':'); return (line[0 : end], line[end + 1 :])] *)
Definition split_index_parts (line : string) : string * string :=
  let end_ := PyStr.find ":" line in
  (PyStr.slice line (Some 0) (Some end_), PyStr.slice line (Some (end_ + 1)) None).

Definition parse_index_line (file_offset_page_id_article_name_nl : string)
  : Exc IndexEntry :=
  let '(file_offset, page_id_article_name_nl) :=
    split_index_parts file_offset_page_id_article_name_nl in
  let '(page_id, article_name_nl) := split_index_parts page_id_article_name_nl in
  exc_bind (PyStr.int file_offset) (fun file_offset =>
  exc_bind (PyStr.int page_id) (fun page_id =>
  OK (mkIndexEntry file_offset page_id
        (PyStr.slice article_name_nl None (Some (-1)))))).

(** ** Title predicates *)

(** [exact_match_smart_predicate(text)]: the closure [ci_ret] when [text]
    equals its own lower-casing, the closure [cs_ret] otherwise. *)
Definition exact_match_smart_predicate (text : string) : IndexEntry -> bool :=
  let ci_ret := fun entry : IndexEntry =>
    String.eqb (PyStr.lower text) (PyStr.lower (article_name entry)) in
  let cs_ret := fun entry : IndexEntry =>
    String.eqb text (article_name entry) in
  if String.eqb text (PyStr.lower text) then ci_ret else cs_ret.

(** ** The two files of a database *)

Definition nl : string := String (ascii_of_nat 10) EmptyString.

(** The lines a file opened in text mode presents when iterated. A line
    ends at a line feed, at a carriage return, or at a carriage return
    followed by a line feed, and each of these arrives as the one character
    [nl] at the end of the line; the last line may lack it. *)
Fixpoint file_lines (content : string) : list string :=
  match content with
  | EmptyString => []
  | String c rest =>
      if Ascii.eqb c (ascii_of_nat 10) then nl :: file_lines rest
      else if Ascii.eqb c (ascii_of_nat 13) then
        match rest with
        | String c' rest' =>
            if Ascii.eqb c' (ascii_of_nat 10) then nl :: file_lines rest'
            else nl :: file_lines rest
        | EmptyString => [nl]
        end
      else match file_lines rest with
           | [] => [String c EmptyString]
           | l :: ls => String c l :: ls
           end
  end.

(** The index file, opened in text mode: its lines and how many of them the
    iterator has already handed out. *)
Record TextFile : Type := mkTextFile {
  tf_lines : list string;
  tf_pos : nat
}.

(** The archive, opened in binary mode: its bytes and the byte cursor. *)
Record BinFile : Type := mkBinFile {
  bf_data : list byte;
  bf_pos : Z
}.

Definition open_text (content : string) : TextFile :=
  mkTextFile (file_lines content) 0.

Definition open_bin (data : list byte) : BinFile := mkBinFile data 0.

Module BinIO.

Definition size (f : BinFile) : Z := Z.of_nat (length (bf_data f)).

Definition tell (f : BinFile) : Exc Z * BinFile := (OK (bf_pos f), f).

(** [f.seek(offset)]: an absolute position; a negative one is refused. *)
Definition seek (offset : Z) (f : BinFile) : Exc unit * BinFile :=
  if offset <? 0 then (Raise OSError, f)
  else (OK tt, mkBinFile (bf_data f) offset).

(** [f.seek(offset, 2)]: a position relative to the end of the file. *)
Definition seek_end (offset : Z) (f : BinFile) : Exc unit * BinFile :=
  if size f + offset <? 0 then (Raise OSError, f)
  else (OK tt, mkBinFile (bf_data f) (size f + offset)).

(** [f.read(n)]: up to [n] bytes from the cursor, fewer at the end of the
    file, and all the rest for [n = -1]; a length below -1 is refused with
    [ValueError]. A short read is no error. *)
Definition read (n : Z) (f : BinFile) : Exc (list byte) * BinFile :=
  if n <? -1 then (Raise ValueError, f)
  else
    let rest := drop (Z.to_nat (bf_pos f)) (bf_data f) in
    let got := if n <? 0 then rest else take (Z.to_nat n) rest in
    (OK got, mkBinFile (bf_data f) (bf_pos f + Z.of_nat (length got))).

End BinIO.

(** [get_file_size(f)]: the size of the file; the cursor is put back. *)
Definition get_file_size (f : BinFile) : Exc Z * BinFile :=
  match BinIO.tell f with
  | (Raise e, f) => (Raise e, f)
  | (OK restore, f) =>
      match BinIO.seek_end 0 f with
      | (Raise e, f) => (Raise e, f)
      | (OK _, f) =>
          match BinIO.tell f with
          | (Raise e, f) => (Raise e, f)
          | (OK ret, f) =>
              match BinIO.seek restore f with
              | (Raise e, f) => (Raise e, f)
              | (OK _, f) => (OK ret, f)
              end
          end
      end
  end.

(** ** The database object and its methods as state transformers *)

Record WikiDb : Type := mkWikiDb {
  index_file : TextFile;
  wiki_file : BinFile;
  offset_map : gmap Z Z
}.

(** A method body: it may change the database (the cursors) and may raise;
    the state reached is kept when it raises. *)
Definition M (A : Type) : Type := WikiDb -> Exc A * WikiDb.

Definition ret {A} (a : A) : M A := fun db => (OK a, db).

Definition bind {A B} (m : M A) (k : A -> M B) : M B :=
  fun db =>
    match m db with
    | (OK a, db') => k a db'
    | (Raise e, db') => (Raise e, db')
    end.

Definition lift {A} (x : Exc A) : M A := fun db => (x, db).

Declare Scope wiki_scope.
Delimit Scope wiki_scope with wiki.
Notation "x <- m ;; k" := (bind m (fun x => k))
  (at level 100, m at next level, right associativity) : wiki_scope.
Notation "m ;; k" := (bind m (fun _ => k))
  (at level 100, right associativity) : wiki_scope.
Local Open Scope wiki_scope.

(** [self.index_file.seek(0)] *)
Definition index_seek0 : M unit :=
  fun db => (OK tt, mkWikiDb (mkTextFile (tf_lines (index_file db)) 0)
                            (wiki_file db) (offset_map db)).

(** The lines [for ... in self.index_file] will run over: those from the
    cursor on. *)
Definition index_iter : M (list string) :=
  fun db => (OK (drop (tf_pos (index_file db)) (tf_lines (index_file db))), db).

(** One step of the file iterator: the cursor moves past the line. *)
Definition index_next : M unit :=
  fun db => (OK tt, mkWikiDb (mkTextFile (tf_lines (index_file db))
                                         (S (tf_pos (index_file db))))
                            (wiki_file db) (offset_map db)).

(** An operation on [self.wiki_file]. *)
Definition on_wiki_file {A} (op : BinFile -> Exc A * BinFile) : M A :=
  fun db =>
    let '(r, f) := op (wiki_file db) in
    (r, mkWikiDb (index_file db) f (offset_map db)).

(** [self.offset_map[key]] *)
Definition offset_map_getitem (key : Z) : M Z :=
  fun db =>
    match offset_map db !! key with
    | Some v => (OK v, db)
    | None => (Raise (KeyError key), db)
    end.

(** The loop of [__load_offset_map] over the lines still to come, with the
    local variables [offset_map] and [previous]. *)
Fixpoint load_offset_map_loop (lines : list string)
    (offset_map : gmap Z Z) (previous : Z) : M (gmap Z Z * Z) :=
  match lines with
  | [] => ret (offset_map, previous)
  | index_entry_text :: lines' =>
      index_next ;;
      let '(file_offset_str, _) := split_index_parts index_entry_text in
      file_offset <- lift (PyStr.int file_offset_str) ;;
      let previous := if previous =? -1 then file_offset else previous in
      if negb (file_offset =? previous)
      then load_offset_map_loop lines' (<[previous := file_offset]> offset_map)
                                file_offset
      else load_offset_map_loop lines' offset_map previous
  end.

Definition load_offset_map : M (gmap Z Z) :=
  index_seek0 ;;
  lines <- index_iter ;;
  r <- load_offset_map_loop lines ∅ (-1) ;;
  let '(offset_map, previous) := r in
  last_offset <- on_wiki_file get_file_size ;;
  ret (<[previous := last_offset]> offset_map).

(** [WikiDb(wiki_file_name, index_file_name)] on files with the given
    contents. *)
Definition WikiDb_init (wiki : list byte) (index : string) : Exc WikiDb :=
  let self := mkWikiDb (open_text index) (open_bin wiki) ∅ in
  match load_offset_map self with
  | (OK m, self) => OK (mkWikiDb (index_file self) (wiki_file self) m)
  | (Raise e, _) => Raise e
  end.

(** The loop of [load_index], with the local list [entries]. The predicate
    is a pure test on entries. *)
Fixpoint load_index_loop (predicate : IndexEntry -> bool)
    (lines : list string) (entries : list IndexEntry) : M (list IndexEntry) :=
  match lines with
  | [] => ret entries
  | index_entry_text :: lines' =>
      index_next ;;
      entry <- lift (parse_index_line index_entry_text) ;;
      load_index_loop predicate lines'
        (if predicate entry then entries ++ [entry] else entries)
  end.

Definition load_index (predicate : IndexEntry -> bool) : M (list IndexEntry) :=
  index_seek0 ;;
  lines <- index_iter ;;
  load_index_loop predicate lines [].

(** ** Element trees, as [xml.etree.ElementTree] presents a parsed document *)

#[local] Unset Elimination Schemes.
Inductive Element : Type :=
| mkElement (tag : string) (text : option string) (children : list Element).
#[local] Set Elimination Schemes.

Definition tag (e : Element) : string := let '(mkElement t _ _) := e in t.
(** [e.text]: [None] for an element without character data. *)
Definition text (e : Element) : option string := let '(mkElement _ x _) := e in x.
(** The sub-elements iterating over [e] yields. *)
Definition children (e : Element) : list Element := let '(mkElement _ _ c) := e in c.

(** [e.findall(path)] for a path [t1/t2/...] of tag names, given as the list
    of its steps: children named [t1], their children named [t2], ... in
    document order. *)
Fixpoint findall (path : list string) (e : Element) : list Element :=
  match path with
  | [] => [e]
  | t :: path' =>
      flat_map (findall path')
               (List.filter (fun c => String.eqb (tag c) t) (children e))
  end.

(** [e.find(path)]: the first match, or [None]. *)
Definition find (path : list string) (e : Element) : option Element :=
  head (findall path e).

(** [next(filter(f, l))] for a test that may raise. *)
Fixpoint next_filter {A} (f : A -> Exc bool) (l : list A) : Exc A :=
  match l with
  | [] => Raise StopIteration
  | x :: l' =>
      match f x with
      | Raise e => Raise e
      | OK true => OK x
      | OK false => next_filter f l'
      end
  end.

(** ** The libraries the database calls *)

(** What [bz2], the UTF-8 codec, [xml.etree.ElementTree] and
    [mwparserfromhell] compute is not part of this program: they are taken
    as given functions. *)
Class Collaborators : Type := {
  (** the type of [mwparserfromhell]'s parsed documents *)
  Wikicode : Type;
  (** [bz2.BZ2Decompressor().decompress(data)] on a fresh decompressor *)
  bz2_decompress : list byte -> Exc (list byte);
  (** [data.decode('utf-8')] *)
  utf8_decode : list byte -> Exc string;
  (** [ET.fromstring(text)] *)
  ET_fromstring : string -> Exc Element;
  (** [mwp.parse(value)] on a [str] or on [None] *)
  mwp_parse : option string -> Wikicode
}.

(** What [load_article] can hand back to its caller: a piece of text, or a
    parsed document. *)
Inductive value `{Collaborators} : Type :=
| VStr (s : string)
| VWikicode (w : Wikicode).

Section ChunkStore.
Context `{Collaborators}.

Definition load_chunk (entry : IndexEntry) : M string :=
  let begin := file_offset entry in
  end_ <- offset_map_getitem begin ;;
  let chunk_size := end_ - begin in
  on_wiki_file (BinIO.seek begin) ;;
  raw <- on_wiki_file (BinIO.read chunk_size) ;;
  data <- lift (bz2_decompress raw) ;;
  text <- lift (utf8_decode data) ;;
  ret text.

(** [int(page.find('id').text) == entry.page_id] *)
Definition is_match (entry : IndexEntry) (page : Element) : Exc bool :=
  match find ["id"] page with
  | None => Raise AttributeError
  | Some id_element =>
      match text id_element with
      | None => Raise TypeError
      | Some id_text =>
          exc_map (fun id => id =? page_id entry) (PyStr.int id_text)
      end
  end.

Definition load_article (entry : IndexEntry) : M value :=
  chunk <- load_chunk entry ;;
  root <- lift (ET_fromstring ("<root>" ++ chunk ++ "</root>")) ;;
  page <- lift (next_filter (is_match entry) (children root)) ;;
  page_contents <- lift (match find ["revision"; "text"] page with
                         | None => Raise AttributeError
                         | Some text_element => OK (text text_element)
                         end) ;;
  let parsed := mwp_parse page_contents in
  ret (VWikicode parsed).

(** What the steps of [load_article] after [__load_chunk] make of the chunk
    text: they touch no file. *)
Definition article_of_chunk (entry : IndexEntry) (chunk : string) : Exc value :=
  exc_bind (ET_fromstring ("<root>" ++ chunk ++ "</root>")) (fun root =>
  exc_bind (next_filter (is_match entry) (children root)) (fun page =>
  exc_bind (match find ["revision"; "text"] page with
            | None => Raise AttributeError
            | Some text_element => OK (text text_element)
            end) (fun page_contents =>
  OK (VWikicode (mwp_parse page_contents))))).

(** What [load_article] makes of the block of bytes read from the archive. *)
Definition article_of_block (entry : IndexEntry) (raw : list byte) : Exc value :=
  exc_bind (bz2_decompress raw) (fun data =>
  exc_bind (utf8_decode data) (fun chunk =>
  article_of_chunk entry chunk)).

End ChunkStore.

(** ** The words of the specification *)

(** A base-10 integer as the index format writes it: an optional sign and
    at least one digit. Its value is the usual positional one. *)
Fixpoint all_digits (s : string) : bool :=
  match s with
  | EmptyString => true
  | String c s' => PyStr.is_digit c && all_digits s'
  end.

Definition is_decimal (s : string) : bool :=
  match s with
  | EmptyString => false
  | _ => all_digits s
  end.

Fixpoint decimal_value (s : string) : Z :=
  match s with
  | EmptyString => 0
  | String c s' =>
      PyStr.digit_value c * 10 ^ Z.of_nat (String.length s') + decimal_value s'
  end.

Definition is_integer (s : string) : bool :=
  match s with
  | String "-" r => is_decimal r
  | String "+" r => is_decimal r
  | _ => is_decimal s
  end.

Definition integer_value (s : string) : Z :=
  match s with
  | String "-" r => - decimal_value r
  | String "+" r => decimal_value r
  | _ => decimal_value s
  end.

(** The number of separator characters of a line. *)
Fixpoint count_separators (s : string) : nat :=
  match s with
  | EmptyString => 0
  | String c s' => (if Ascii.eqb c ":" then 1 else 0) + count_separators s'
  end.

(** A text is entirely lower-case when none of its characters is an
    upper-case letter. *)
Fixpoint entirely_lower (s : string) : bool :=
  match s with
  | EmptyString => true
  | String c s' => negb (PyStr.is_upper c) && entirely_lower s'
  end.

(** Decoding every line of an index in file order; the first line that
    cannot be decoded makes the whole decoding fail. *)
Fixpoint decode_all (lines : list string) : Exc (list IndexEntry) :=
  match lines with
  | [] => OK []
  | line :: lines' =>
      exc_bind (parse_index_line line) (fun entry =>
      exc_map (cons entry) (decode_all lines'))
  end.

(** The full decoded line sequence, filtered by the predicate. *)
Definition filter_decoded (predicate : IndexEntry -> bool) (lines : list string)
  : Exc (list IndexEntry) :=
  exc_map (List.filter predicate) (decode_all lines).

(** An index line starts with the offset [o]. *)
Definition line_has_offset (line : string) (o : Z) : Prop :=
  PyStr.int (fst (split_index_parts line)) = OK o.

(** The start offsets of an index, in file order: each distinct offset
    stands on one line and on [extra] consecutive lines more. *)
Definition repeated_offsets (groups : list (Z * nat)) : list Z :=
  flat_map (fun g => replicate (S (snd g)) (fst g)) groups.

(** A page element is a record with identifier [id] when its first [id]
    child holds the integer literal of [id]. *)
Definition record_id (page : Element) : Exc Z :=
  match find ["id"] page with
  | None => Raise AttributeError
  | Some id_element =>
      match text id_element with
      | None => Raise TypeError
      | Some id_text => PyStr.int id_text
      end
  end.

(** The raw markup body of a record: the character data of its first
    [revision/text] element. *)
Definition record_body (page : Element) : option (option string) :=
  option_map text (find ["revision"; "text"] page).

(** ** A small instance to run the model on concrete data *)

Module Demo.

(** Pass-through decompression, decoding of the ASCII subset of UTF-8, an
    XML reader that knows the two documents below, and a markup parser
    that returns the whole markup as one text node. *)

Definition page (id body : string) : Element :=
  mkElement "page" None
    [mkElement "id" (Some id) [];
     mkElement "revision" None [mkElement "text" (Some body) []]].

Definition chunk_a : string :=
  "<page><id>1</id><revision><text>Woof</text></revision></page><page><id>2</id><revision><text>Meow</text></revision></page>".

Definition chunk_b : string :=
  "<page><id>3</id><revision><text>Six legs</text></revision></page>".

Definition root_a : Element :=
  mkElement "root" None [page "1" "Woof"; page "2" "Meow"].

Definition root_b : Element :=
  mkElement "root" None [page "3" "Six legs"].

Definition decode_ascii (data : list byte) : Exc string :=
  if forallb (fun b => (Byte.to_N b <? 128)%N) data
  then OK (string_of_list_byte data)
  else Raise UnicodeDecodeError.

Definition fromstring (document : string) : Exc Element :=
  if String.eqb document ("<root>" ++ chunk_a ++ "</root>") then OK root_a
  else if String.eqb document ("<root>" ++ chunk_b ++ "</root>") then OK root_b
  else Raise ParseError.

#[export] Instance collaborators : Collaborators := {|
  Wikicode := list string;
  bz2_decompress := fun data => OK data;
  utf8_decode := decode_ascii;
  ET_fromstring := fromstring;
  mwp_parse := fun markup =>
    match markup with Some s => [s] | None => [] end
|}.

Definition index : string :=
  "0:1:Dog" ++ nl ++ "0:2:Cat" ++ nl ++ "122:3:Ant" ++ nl.

Definition archive : list byte :=
  list_byte_of_string chunk_a ++ list_byte_of_string chunk_b.

(** The archive cut after its first chunk, with an index that places the
    next chunk at offset 200. *)
Definition short_index : string :=
  "0:1:Dog" ++ nl ++ "0:2:Cat" ++ nl ++ "200:3:Ant" ++ nl.

Definition short_archive : list byte := list_byte_of_string chunk_a.

Definition db : WikiDb :=
  match WikiDb_init archive index with
  | OK self => self
  | Raise _ => mkWikiDb (open_text index) (open_bin archive) ∅
  end.

Definition short_db : WikiDb :=
  match WikiDb_init short_archive short_index with
  | OK self => self
  | Raise _ => mkWikiDb (open_text short_index) (open_bin short_archive) ∅
  end.

End Demo.

(** ** The block of a chunk *)

(** The bytes [__load_chunk] asks the archive for: from [begin] on, [size]
    of them or as many as there are. *)
Definition block (db : WikiDb) (begin size : Z) : list byte :=
  take (Z.to_nat size) (drop (Z.to_nat begin) (bf_data (wiki_file db))).

(** ** The offset scan on integers *)

(** The loop of [__load_offset_map] once the offsets are read off the
    lines: what it does to [offset_map] and [previous]. *)
Fixpoint offsets_scan (offsets : list Z) (offset_map : gmap Z Z) (previous : Z)
  : gmap Z Z * Z :=
  match offsets with
  | [] => (offset_map, previous)
  | file_offset :: offsets' =>
      let previous := if previous =? -1 then file_offset else previous in
      if negb (file_offset =? previous)
      then offsets_scan offsets' (<[previous := file_offset]> offset_map) file_offset
      else offsets_scan offsets' offset_map previous
  end.

(** The ranges of a run of distinct offsets: every offset is mapped to the
    next one, and the last one to [total]. *)
Fixpoint ranges (previous : Z) (offsets : list Z) (total : Z)
    (offset_map : gmap Z Z) : gmap Z Z :=
  match offsets with
  | [] => <[previous := total]> offset_map
  | o :: offsets' => ranges o offsets' total (<[previous := o]> offset_map)
  end.

(** ** The other operations of the program *)

(** [prefix] stands at the start of [s]. *)
Fixpoint starts_with (prefix s : string) : bool :=
  match prefix, s with
  | EmptyString, _ => true
  | String a prefix', String b s' => Ascii.eqb a b && starts_with prefix' s'
  | String _ _, EmptyString => false
  end.

(** [needle in hay] on two texts: [needle] stands at some position of
    [hay]. *)
Fixpoint str_contains (needle hay : string) : bool :=
  starts_with needle hay
  || match hay with
     | EmptyString => false
     | String _ hay' => str_contains needle hay'
     end.

(** [contains_substr_predicate(text)]: the closure [ret]. *)
Definition contains_substr_predicate (text : string) : IndexEntry -> bool :=
  fun entry => str_contains text (article_name entry).

(** The loop of [load_index_single]: it returns from inside the loop at the
    first entry the predicate accepts. *)
Fixpoint load_index_single_loop (predicate : IndexEntry -> bool)
    (lines : list string) : M (option IndexEntry) :=
  match lines with
  | [] => ret None
  | index_entry_text :: lines' =>
      index_next ;;
      entry <- lift (parse_index_line index_entry_text) ;;
      if predicate entry then ret (Some entry)
      else load_index_single_loop predicate lines'
  end.

Definition load_index_single (predicate : IndexEntry -> bool)
  : M (option IndexEntry) :=
  index_seek0 ;;
  lines <- index_iter ;;
  load_index_single_loop predicate lines.

(** [s.replace(old, new)] for a one-character [old]. *)
Fixpoint str_replace (old : ascii) (new s : string) : string :=
  match s with
  | EmptyString => EmptyString
  | String c s' =>
      if Ascii.eqb c old then new ++ str_replace old new s'
      else String c (str_replace old new s')
  end.

Definition space : ascii := ascii_of_nat 32.
Definition quote : ascii := ascii_of_nat 34.

(** The tag name [__handle_wikilink] derives from a link title:
    [title.replace(' ', '#space#').replace(QUOTE, '#quote#')], QUOTE being
    the double-quote character. *)
Definition linktagname (title : string) : string :=
  str_replace quote "#quote#" (str_replace space "#space#" title).

(** A text has none of the characters [c]. *)
Fixpoint free_of (c : ascii) (s : string) : bool :=
  match s with
  | EmptyString => true
  | String a s' => negb (Ascii.eqb a c) && free_of c s'
  end.

Section Navigation.
Context `{Collaborators}.

(** [load_article(entry)] on what [load_index_single] returned: the first
    statement of [__load_chunk] reads [entry.file_offset], which [None] does
    not have. *)
Definition load_article_of (entry : option IndexEntry) : M value :=
  match entry with
  | None => lift (Raise AttributeError)
  | Some entry => load_article entry
  end.

(** The two database calls of the closure [ret] of
    [Window.make_link_binding] (what it prints before and shows after is
    left out): the entry of the title, then its article. *)
Definition follow_link (link : string) : M value :=
  index <- load_index_single (exact_match_smart_predicate link) ;;
  load_article_of index.

End Navigation.

(** The database after the index iterator has handed out [n] more lines. *)
Definition advance_index (n : nat) (db : WikiDb) : WikiDb :=
  mkWikiDb (mkTextFile (tf_lines (index_file db)) (n + tf_pos (index_file db)))
           (wiki_file db) (offset_map db).

(** A line decodes to an entry the predicate turns down. *)
Definition skipped (predicate : IndexEntry -> bool) (line : string) : Prop :=
  exists entry, parse_index_line line = OK entry /\ predicate entry = false.

(** The bytes one [read] of [__load_chunk] returns when it returns:
    [size] bytes from [begin] or what is left of the archive, all of it for
    the size -1. *)
Definition bytes_read (data : list byte) (begin size : Z) : list byte :=
  if size <? 0 then drop (Z.to_nat begin) data
  else take (Z.to_nat size) (drop (Z.to_nat begin) data).

(** The range of an entry is not reversed: its end, when the offset map has
    one, is no smaller than its start (the read is then asked for a number
    of bytes that is not negative). *)
Definition range_not_reversed (db : WikiDb) (entry : IndexEntry) : Prop :=
  forall end_ : Z,
    offset_map db !! file_offset entry = Some end_ -> file_offset entry <= end_.

(** ** Texts of any code points *)

(** A type of texts with Python's comparison [==] and its [lower()]. What
    [lower()] computes is left open: what holds for every such type holds
    for [str] with the full case table of the interpreter. *)
Class PyText (str : Type) : Type := {
  text_eqb : str -> str -> bool;
  text_lower : str -> str;
  text_eqb_eq : forall a b : str, text_eqb a b = true <-> a = b
}.

(** [exact_match_smart_predicate(text)] on entries whose article name,
    read by [name_of], is a text of such a type. *)
Definition exact_match_smart_predicate_on {str entry : Type} `{PyText str}
    (name_of : entry -> str) (text : str) : entry -> bool :=
  let ci_ret := fun e : entry =>
    text_eqb (text_lower text) (text_lower (name_of e)) in
  let cs_ret := fun e : entry =>
    text_eqb text (name_of e) in
  if text_eqb text (text_lower text) then ci_ret else cs_ret.

(** The texts of code points up to U+00FF, as the rest of the model has
    them. *)
#[export] Instance latin1_text : PyText string := {|
  text_eqb := String.eqb;
  text_lower := PyStr.lower;
  text_eqb_eq := String.eqb_eq
|}.

Module Unicode.

(** Texts over a larger alphabet: the code points up to U+00FF and U+03D2,
    GREEK UPSILON WITH HOOK SYMBOL, an upper-case letter (category Lu) that
    has no lower-case form: [lower()] leaves it as it is. No character of
    this alphabet is lower-cased by context or to several characters, so
    [lower()] acts on each character by itself. *)
Inductive char : Type :=
| Latin1 (c : ascii)
| UpsilonHook.

#[export] Instance char_eq_dec : EqDecision char.
Proof. solve_decision. Defined.

Definition is_upper (ch : char) : bool :=
  match ch with
  | Latin1 c => PyStr.is_upper c
  | UpsilonHook => true
  end.

Definition lower_char (ch : char) : char :=
  match ch with
  | Latin1 c => Latin1 (PyStr.lower_char c)
  | UpsilonHook => UpsilonHook
  end.

Definition lower (s : list char) : list char := map lower_char s.

#[export] Instance text : PyText (list char) := {|
  text_eqb := fun a b => bool_decide (a = b);
  text_lower := lower;
  text_eqb_eq := fun a b => bool_decide_eq_true (a = b)
|}.

Record Entry : Type := mkEntry {
  file_offset : Z;
  page_id : Z;
  article_name : list char
}.

(** The query U+03D2 b and the title U+03D2 B. *)
Definition query : list char := [UpsilonHook; Latin1 "b"].
Definition title : list char := [UpsilonHook; Latin1 "B"].

End Unicode.

#[global] Existing Instance Unicode.text.

(** * Properties *)

Example demo_offset_map : offset_map Demo.db = {[ 0 := 122; 122 := 187 ]}.
Proof. vm_compute. reflexivity. Qed.

(** The scenario of the specification: three lines, two chunks, an archive
    of 80 bytes. *)
Example scenario_offset_map :
  exc_map offset_map
    (WikiDb_init (replicate 80 x00)
                 ("0:1:Dog" ++ nl ++ "0:2:Cat" ++ nl ++ "50:3:Ant" ++ nl))
  = OK {[ 0 := 50; 50 := 80 ]}.
Proof. vm_compute. reflexivity. Qed.

Example demo_load_article :
  fst (load_article (mkIndexEntry 122 3 "Ant") Demo.db)
  = OK (@VWikicode Demo.collaborators ["Six legs"]).
Proof. vm_compute. reflexivity. Qed.

(** The library stand-ins at their edges. *)
Example file_lines_universal_newlines :
  file_lines ("a" ++ String (ascii_of_nat 13) nl ++ "b"
              ++ String (ascii_of_nat 13) "c" ++ nl ++ "d")
  = ["a" ++ nl; "b" ++ nl; "c" ++ nl; "d"].
Proof. reflexivity. Qed.

Example int_white_space :
  PyStr.int (" 12" ++ nl) = OK 12
  /\ PyStr.int (String (ascii_of_nat 160) "12") = OK 12
  /\ PyStr.int (String (ascii_of_nat 28) "12") = Raise ValueError.
Proof. repeat split; reflexivity. Qed.

Example read_lengths :
  fst (BinIO.read (-1) (mkBinFile [x01; x02; x03] 1)) = OK [x02; x03]
  /\ fst (BinIO.read (-2) (mkBinFile [x01; x02; x03] 1)) = Raise ValueError
  /\ fst (BinIO.read 5 (mkBinFile [x01; x02; x03] 1)) = OK [x02; x03].
Proof. repeat split; reflexivity. Qed.

(** ** Slices and searches on texts *)

#[local] Arguments String.append !_ _ / : simpl nomatch.

Section Text.
Implicit Types (s a b : string) (c : ascii) (n : nat).

Lemma length_append a b :
  String.length (a ++ b) = (String.length a + String.length b)%nat.
Proof. induction a as [|c a IH]; simpl; [done | by rewrite IH]. Qed.

Lemma take_append a b : PyStr.take (String.length a) (a ++ b) = a.
Proof. induction a as [|c a IH]; simpl; [by destruct b | by rewrite IH]. Qed.

Lemma drop_append a b : PyStr.drop (String.length a) (a ++ b) = b.
Proof. induction a as [|c a IH]; simpl; [done | exact IH]. Qed.

Lemma take_all s : PyStr.take (String.length s) s = s.
Proof. induction s as [|c s IH]; simpl; [done | by rewrite IH]. Qed.

Lemma take_beyond s n : (String.length s <= n)%nat -> PyStr.take n s = s.
Proof.
  revert n; induction s as [|c s IH]; intros [|n] Hn; simpl in *; try done; try lia.
  rewrite IH; [done | lia].
Qed.

Lemma append_nil_r s : s ++ "" = s.
Proof. induction s as [|c s IH]; simpl; [done | by rewrite IH]. Qed.

Lemma append_assoc a b s : (a ++ b) ++ s = a ++ (b ++ s).
Proof. induction a as [|c a IH]; simpl; [done | by rewrite IH]. Qed.

Lemma find_ge_minus_one c s : -1 <= PyStr.find c s.
Proof.
  induction s as [|x s IH]; simpl; [lia |].
  destruct (Ascii.eqb x c); [lia |].
  destruct (PyStr.find c s <? 0) eqn:E; lia.
Qed.

(** [find] returns -1 exactly on the texts without the character. *)
Lemma find_absent s : count_separators s = 0%nat -> PyStr.find ":" s = -1.
Proof.
  induction s as [|x s IH]; simpl; [done |].
  destruct (Ascii.eqb x ":"); [done |]. simpl. intros Hs.
  rewrite (IH Hs). done.
Qed.

Lemma find_present s :
  count_separators s <> 0%nat -> 0 <= PyStr.find ":" s < PyStr.len s.
Proof.
  unfold PyStr.len.
  induction s as [|x s IH]; simpl; [done |].
  destruct (Ascii.eqb x ":"); [lia |]. simpl. intros Hs.
  specialize (IH Hs).
  destruct (PyStr.find ":" s <? 0) eqn:E; lia.
Qed.

(** The first separator of [a:b] stands right after [a] when [a] has
    none. *)
Lemma find_first_separator a b :
  count_separators a = 0%nat ->
  PyStr.find ":" (a ++ String ":" b) = PyStr.len a.
Proof.
  unfold PyStr.len.
  induction a as [|x a IH]; simpl; [done |].
  destruct (Ascii.eqb x ":"); [done |]. simpl. intros Ha.
  rewrite (IH Ha).
  destruct (Z.of_nat (String.length a) <? 0) eqn:E; lia.
Qed.

Lemma slice_prefix s (n : Z) :
  0 <= n <= PyStr.len s ->
  PyStr.slice s (Some 0) (Some n) = PyStr.take (Z.to_nat n) s.
Proof.
  intros Hn. unfold PyStr.slice, PyStr.clamp. simpl.
  destruct (n <? 0) eqn:E; [lia |].
  replace (Z.max 0 (Z.min (PyStr.len s) 0)) with 0 by lia.
  replace (Z.max 0 (Z.min (PyStr.len s) n)) with n by lia.
  rewrite Z.sub_0_r. done.
Qed.

Lemma slice_suffix s (n : Z) :
  0 <= n <= PyStr.len s ->
  PyStr.slice s (Some n) None = PyStr.drop (Z.to_nat n) s.
Proof.
  intros Hn. unfold PyStr.slice, PyStr.clamp.
  destruct (n <? 0) eqn:E; [lia |].
  replace (Z.max 0 (Z.min (PyStr.len s) n)) with n by lia.
  apply take_beyond.
  assert (forall k t, String.length (PyStr.drop k t) <= String.length t)%nat as Hd.
  { intros k; induction k as [|k IH]; intros [|x t]; simpl; try lia.
    specialize (IH t); lia. }
  specialize (Hd (Z.to_nat n) s). unfold PyStr.len in *.
  assert (forall k t, (k <= String.length t)%nat ->
            String.length (PyStr.drop k t) = (String.length t - k)%nat) as He.
  { intros k; induction k as [|k IH]; intros [|x t] Hk; simpl in *; try lia.
    apply IH; lia. }
  rewrite He; lia.
Qed.

(** [s[:-1]] drops the last character, if there is one. *)
Lemma slice_drop_last s :
  PyStr.slice s None (Some (-1)) = PyStr.take (String.length s - 1) s.
Proof.
  unfold PyStr.slice, PyStr.clamp, PyStr.len. simpl.
  f_equal. lia.
Qed.

Lemma slice_drop_last_snoc s c :
  PyStr.slice (s ++ String c "") None (Some (-1)) = s.
Proof.
  rewrite slice_drop_last, length_append. simpl.
  replace (String.length s + 1 - 1)%nat with (String.length s) by lia.
  apply take_append.
Qed.

(** [split_index_parts] on a text with a separator: the part before the
    first separator, and everything after it. *)
Lemma split_index_parts_first a b :
  count_separators a = 0%nat ->
  split_index_parts (a ++ String ":" b) = (a, b).
Proof.
  intros Ha. unfold split_index_parts.
  rewrite (find_first_separator a b Ha).
  assert (PyStr.len (a ++ String ":" b) = PyStr.len a + 1 + PyStr.len b) as Hl.
  { unfold PyStr.len. rewrite length_append. simpl. lia. }
  assert (0 <= PyStr.len a /\ 0 <= PyStr.len b) as [? ?] by (unfold PyStr.len; lia).
  rewrite slice_prefix, slice_suffix by lia.
  unfold PyStr.len. rewrite Nat2Z.id.
  replace (Z.to_nat (Z.of_nat (String.length a) + 1)) with (S (String.length a)) by lia.
  rewrite take_append. f_equal.
  replace (a ++ String ":" b) with ((a ++ ":") ++ b)
    by (rewrite append_assoc; done).
  replace (S (String.length a)) with (String.length (a ++ ":"))
    by (rewrite length_append; simpl; lia).
  apply drop_append.
Qed.

(** On a text without separator [find] answers -1, and the two slices are
    the text without its last character and the whole text. *)
Lemma split_index_parts_absent s :
  count_separators s = 0%nat ->
  split_index_parts s = (PyStr.take (String.length s - 1) s, s).
Proof.
  intros Hs. unfold split_index_parts. rewrite (find_absent s Hs).
  f_equal.
  - unfold PyStr.slice, PyStr.clamp, PyStr.len. simpl.
    replace (Z.max 0 (Z.min (Z.of_nat (String.length s)) 0)) with 0 by lia.
    simpl. f_equal. lia.
  - replace (-1 + 1) with 0 by lia. rewrite slice_suffix by (unfold PyStr.len; lia).
    done.
Qed.

(** Every text with a separator splits at its first one. *)
Lemma first_separator_split s :
  count_separators s <> 0%nat ->
  exists a b, s = a ++ String ":" b /\ count_separators a = 0%nat
              /\ count_separators s = S (count_separators b).
Proof.
  induction s as [|x s IH]; simpl; [done |].
  destruct (Ascii.eqb x ":") eqn:E.
  - intros _. apply Ascii.eqb_eq in E as ->. exists "", s. done.
  - simpl. intros Hs. destruct (IH Hs) as (a & b & -> & Ha & Hb).
    exists (String x a), b. simpl. rewrite E. done.
Qed.

End Text.

(** ** Integer literals *)

Ltac ascii_cases c := destruct c as [[] [] [] [] [] [] [] []].

Section Integers.
Implicit Types (s r : string) (c : ascii).

Lemma digit_is_no_separator c :
  PyStr.is_digit c = true -> Ascii.eqb c ":" = false.
Proof. ascii_cases c; intros Hd; vm_compute in Hd; try discriminate Hd; reflexivity. Qed.

Lemma all_digits_no_separator s :
  all_digits s = true -> count_separators s = 0%nat.
Proof.
  induction s as [|c s IH]; simpl; [done |].
  intros [Hc Hs]%andb_true_iff. rewrite (digit_is_no_separator c Hc). simpl. auto.
Qed.

Lemma is_decimal_all_digits s : is_decimal s = true -> all_digits s = true.
Proof. by destruct s. Qed.

Lemma is_integer_no_separator s :
  is_integer s = true -> count_separators s = 0%nat.
Proof.
  destruct s as [|c r]; [done |].
  ascii_cases c; simpl; intros Hs; try discriminate Hs;
    first [ apply all_digits_no_separator, Hs
          | apply all_digits_no_separator, is_decimal_all_digits, Hs ].
Qed.

(** Reading digits left to right computes the positional value. *)
Lemma int_digits_all_digits s (acc : Z) :
  all_digits s = true ->
  PyStr.int_digits acc true s
  = Some (acc * 10 ^ Z.of_nat (String.length s) + decimal_value s).
Proof.
  revert acc; induction s as [|c s IH]; intros acc; simpl String.length.
  - intros _. simpl. f_equal. lia.
  - intros [Hc Hs]%andb_true_iff. cbn [PyStr.int_digits decimal_value].
    rewrite Hc, (IH _ Hs). f_equal.
    rewrite Nat2Z.inj_succ, Z.pow_succ_r by lia. lia.
Qed.

Lemma int_digits_decimal s :
  is_decimal s = true -> PyStr.int_digits 0 false s = Some (decimal_value s).
Proof.
  destruct s as [|c r]; [done |].
  intros [Hc Hs]%andb_true_iff. cbn [PyStr.int_digits decimal_value].
  rewrite Hc, (int_digits_all_digits r _ Hs). f_equal; lia.
Qed.

(** [int] on a text that starts with a digit reads the digits at once. *)
Lemma int_starts_with_digit c r :
  PyStr.is_digit c = true ->
  PyStr.int (String c r)
  = match PyStr.int_digits 0 false (String c r) with
    | Some v => OK v
    | None => Raise ValueError
    end.
Proof.
  ascii_cases c; intros Hd; vm_compute in Hd; try discriminate Hd; reflexivity.
Qed.

(** [int] accepts every base-10 integer and returns its value. *)
Lemma int_integer s :
  is_integer s = true -> PyStr.int s = OK (integer_value s).
Proof.
  destruct s as [|c r]; [done |].
  destruct (PyStr.is_digit c) eqn:Hc.
  - intros Hs.
    assert (is_decimal (String c r) = true) as Hdec.
    { revert Hs Hc. ascii_cases c; simpl; intros Hs Hc;
        try exact Hs; vm_compute in Hc; discriminate Hc. }
    rewrite (int_starts_with_digit c r Hc), (int_digits_decimal _ Hdec).
    f_equal. revert Hc. ascii_cases c; intros Hc; vm_compute in Hc;
      try discriminate Hc; reflexivity.
  - revert Hc. ascii_cases c; intros Hc Hs; vm_compute in Hc; try discriminate Hc;
      simpl in Hs; rewrite ?andb_false_l in Hs; try discriminate Hs;
      unfold PyStr.int; cbn [PyStr.lstrip]; simpl;
      rewrite (int_digits_decimal r Hs); reflexivity.
Qed.

(** [int] raises nothing but [ValueError]. *)
Lemma int_raises s e : PyStr.int s = Raise e -> e = ValueError.
Proof.
  unfold PyStr.int.
  destruct (match PyStr.lstrip s with
            | String "-" r => (true, r)
            | String "+" r => (false, r)
            | _ => (false, PyStr.lstrip s)
            end) as [negative digits].
  destruct (PyStr.int_digits 0 false digits); congruence.
Qed.

End Integers.

(** ** The index-line codec *)

(** A line with two separators, the first two fields free of separators:
    the fields are cut at these two separators, whatever the third holds. *)
Lemma parse_index_line_fields (O I rest : string) :
  count_separators O = 0%nat -> count_separators I = 0%nat ->
  parse_index_line (O ++ ":" ++ I ++ ":" ++ rest)
  = exc_bind (PyStr.int O) (fun o =>
    exc_bind (PyStr.int I) (fun i =>
    OK (mkIndexEntry o i (PyStr.slice rest None (Some (-1)))))).
Proof.
  intros HO HI. unfold parse_index_line.
  change (O ++ ":" ++ I ++ ":" ++ rest) with (O ++ String ":" (I ++ String ":" rest)).
  rewrite (split_index_parts_first O _ HO), (split_index_parts_first I _ HI).
  done.
Qed.

(** With two separators or more, parsing fails exactly when one of the two
    integer fields is no integer literal for [int], and then with
    [ValueError]. *)
Lemma parse_index_line_two_separators (line : string) :
  (2 <= count_separators line)%nat ->
  exists O I rest,
    line = O ++ ":" ++ I ++ ":" ++ rest
    /\ count_separators O = 0%nat /\ count_separators I = 0%nat
    /\ ((exists o i, PyStr.int O = OK o /\ PyStr.int I = OK i
          /\ parse_index_line line
             = OK (mkIndexEntry o i (PyStr.slice rest None (Some (-1)))))
        \/ ((PyStr.int O = Raise ValueError \/ PyStr.int I = Raise ValueError)
            /\ parse_index_line line = Raise ValueError)).
Proof.
  intros Hn.
  destruct (first_separator_split line) as (O & tail & -> & HO & Hc); [lia |].
  destruct (first_separator_split tail) as (I & rest & -> & HI & _); [lia |].
  exists O, I, rest. split; [done |]. split; [done |]. split; [done |].
  change (O ++ String ":" (I ++ String ":" rest)) with (O ++ ":" ++ I ++ ":" ++ rest).
  rewrite (parse_index_line_fields O I rest HO HI).
  destruct (PyStr.int O) as [o | e] eqn:EO.
  - destruct (PyStr.int I) as [i | e] eqn:EI.
    + left. exists o, i. done.
    + right. apply int_raises in EI as ->. simpl. auto.
  - right. apply int_raises in EO as ->. simpl. auto.
Qed.

(** Without any separator both splits answer the line less its last
    character, and the line parses whenever that text is an integer. *)
Lemma parse_index_line_no_separator (line : string) :
  count_separators line = 0%nat ->
  let field := PyStr.take (String.length line - 1) line in
  parse_index_line line
  = exc_bind (PyStr.int field) (fun o => OK (mkIndexEntry o o field)).
Proof.
  intros Hline field. unfold parse_index_line.
  rewrite (split_index_parts_absent line Hline).
  rewrite (split_index_parts_absent line Hline).
  fold field. rewrite slice_drop_last. fold field.
  by destruct (PyStr.int field).
Qed.

(** C3: a well-formed line [OFFSET:ID:TITLE] followed by the line terminator,
    with OFFSET and ID base-10 integers and TITLE any text (separators
    allowed), is cut at its first separator and then at the first separator
    of the remainder, and parses to the entry with offset OFFSET, identifier
    ID and title exactly TITLE, the terminator stripped. *)
Theorem parse_index_line_well_formed (OFFSET ID TITLE : string) :
  is_integer OFFSET = true -> is_integer ID = true ->
  split_index_parts (OFFSET ++ ":" ++ ID ++ ":" ++ TITLE ++ nl)
    = (OFFSET, ID ++ ":" ++ TITLE ++ nl)
  /\ split_index_parts (ID ++ ":" ++ TITLE ++ nl) = (ID, TITLE ++ nl)
  /\ parse_index_line (OFFSET ++ ":" ++ ID ++ ":" ++ TITLE ++ nl)
     = OK (mkIndexEntry (integer_value OFFSET) (integer_value ID) TITLE).
Proof.
  intros HO HI.
  pose proof (is_integer_no_separator _ HO) as HO0.
  pose proof (is_integer_no_separator _ HI) as HI0.
  split; [| split].
  - apply (split_index_parts_first OFFSET _ HO0).
  - apply (split_index_parts_first ID _ HI0).
  - rewrite (parse_index_line_fields OFFSET ID _ HO0 HI0).
    rewrite (int_integer _ HO), (int_integer _ HI). simpl.
    unfold nl. by rewrite slice_drop_last_snoc.
Qed.

Lemma parse_index_line_well_formed_witness :
  is_integer "12" = true /\ is_integer "345" = true
  /\ parse_index_line ("12:345:About C:\System32" ++ nl)
     = OK (mkIndexEntry 12 345 "About C:\System32").
Proof.
  split; [reflexivity |]. split; [reflexivity |].
  exact (proj2 (proj2 (parse_index_line_well_formed
                         "12" "345" "About C:\System32" eq_refl eq_refl))).
Defined.

Lemma take_all_but_last (s : string) :
  s <> "" -> exists c, s = PyStr.take (String.length s - 1) s ++ String c "".
Proof.
  destruct s as [|x s]; [done |]. intros _.
  replace (String.length (String x s) - 1)%nat with (String.length s)
    by (simpl; lia).
  revert x; induction s as [|y s IH]; intros x.
  - exists x. done.
  - destruct (IH y) as [c Hc]. exists c.
    simpl String.length. cbn [PyStr.take]. simpl String.append. by rewrite <- Hc.
Qed.

(** The title is the third field cut by the two splits, less its last
    character, whatever that character is. *)
Lemma parse_index_line_any_last_character (O I T : string) (c : ascii) (o i : Z) :
  count_separators O = 0%nat -> count_separators I = 0%nat ->
  PyStr.int O = OK o -> PyStr.int I = OK i ->
  parse_index_line (O ++ ":" ++ I ++ ":" ++ T ++ String c "")
  = OK (mkIndexEntry o i T).
Proof.
  intros HO HI Ho Hi.
  rewrite (parse_index_line_fields O I _ HO HI), Ho, Hi. simpl.
  by rewrite slice_drop_last_snoc.
Qed.

(** C10: whenever a line parses, the title of the entry is the third field
    (what the second split leaves after its cut) with exactly its final
    character removed, whichever character that is; nothing is removed only
    when the third field is empty. A line without trailing newline so loses
    the last character of its title. *)
Theorem parse_index_line_drops_last_character (line : string) (e : IndexEntry) :
  parse_index_line line = OK e ->
  let third := snd (split_index_parts (snd (split_index_parts line))) in
  (third = "" /\ article_name e = "")
  \/ (exists c, third = article_name e ++ String c "").
Proof.
  unfold parse_index_line. cbv zeta.
  destruct (split_index_parts line) as [O tail]. cbn [snd].
  destruct (split_index_parts tail) as [I third]. cbn [snd].
  destruct (PyStr.int O) as [o |]; [| done]. cbn [exc_bind].
  destruct (PyStr.int I) as [i |]; [| done]. cbn [exc_bind].
  intros [= <-]. cbn [article_name]. rewrite slice_drop_last.
  destruct third as [|x third].
  - left. split; reflexivity.
  - right. by apply take_all_but_last.
Qed.

Lemma parse_index_line_drops_last_character_witness :
  parse_index_line "0:1:Dog" = OK (mkIndexEntry 0 1 "Do")
  /\ ((snd (split_index_parts (snd (split_index_parts "0:1:Dog"))) = ""
       /\ "Do" = "")
      \/ (exists c, snd (split_index_parts (snd (split_index_parts "0:1:Dog")))
                    = "Do" ++ String c "")).
Proof.
  split; [reflexivity |].
  exact (parse_index_line_drops_last_character
           "0:1:Dog" (mkIndexEntry 0 1 "Do") eq_refl).
Defined.

(** C8: a line with fewer than two separators is not refused. Without any
    separator [find] answers -1, both splits return the line less its last
    character, and the line parses when that text is an integer; with one
    separator the second split does the same on the remainder. *)
Theorem parse_index_line_accepts_missing_separators :
  count_separators ("12" ++ nl) = 0%nat
  /\ parse_index_line ("12" ++ nl) = OK (mkIndexEntry 12 12 "12")
  /\ count_separators ("5:7" ++ nl) = 1%nat
  /\ parse_index_line ("5:7" ++ nl) = OK (mkIndexEntry 5 7 "7").
Proof. repeat split; reflexivity. Qed.

(** ** The smart-exact predicate *)

Lemma lower_char_fixed (c : ascii) :
  Ascii.eqb c (PyStr.lower_char c) = negb (PyStr.is_upper c).
Proof. ascii_cases c; reflexivity. Qed.

(** The test [text == text.lower()] holds exactly for the texts without
    upper-case letter. *)
Lemma eqb_lower_entirely_lower (s : string) :
  String.eqb s (PyStr.lower s) = entirely_lower s.
Proof.
  induction s as [|c s IH]; [done |].
  cbn [PyStr.lower entirely_lower String.eqb].
  rewrite lower_char_fixed, IH. by destruct (PyStr.is_upper c).
Qed.

(** The predicate on [IndexEntry] is the general one at the texts of code
    points up to U+00FF. *)
Lemma exact_match_smart_predicate_latin1 (text : string) (e : IndexEntry) :
  exact_match_smart_predicate text e
  = exact_match_smart_predicate_on article_name text e.
Proof. reflexivity. Qed.




(** ** Running a method *)

Lemma get_file_size_size (f : BinFile) :
  0 <= bf_pos f -> get_file_size f = (OK (BinIO.size f), f).
Proof.
  intros Hpos. destruct f as [data pos]. simpl in Hpos.
  unfold get_file_size, BinIO.tell, BinIO.seek_end, BinIO.seek, BinIO.size. simpl.
  rewrite Z.add_0_r.
  destruct (Z.ltb_spec (Z.of_nat (length data)) 0); [lia |].
  destruct (Z.ltb_spec pos 0); [lia | done].
Qed.

(** ** The index search *)

Lemma load_index_loop_decoded (predicate : IndexEntry -> bool)
    (lines : list string) (entries : list IndexEntry) (db : WikiDb) :
  fst (load_index_loop predicate lines entries db)
  = exc_map (fun es => (entries ++ List.filter predicate es)%list)
            (decode_all lines).
Proof.
  revert entries db; induction lines as [|line lines IH]; intros entries db.
  - simpl. by rewrite app_nil_r.
  - cbn [load_index_loop decode_all]. unfold bind at 1. unfold index_next at 1.
    unfold bind at 1. unfold lift at 1.
    destruct (parse_index_line line) as [entry | e]; [| done].
    rewrite IH. cbn [exc_bind].
    destruct (decode_all lines) as [es | e]; [| done].
    unfold exc_map. cbn [exc_bind List.filter]. f_equal.
    destruct (predicate entry); [by rewrite <- app_assoc | done].
Qed.

(** C4: for every predicate and every index, [load_index] returns the
    decoded lines of the index, in file order, filtered by the predicate
    (and fails as the decoding does when a line cannot be decoded); on an
    empty index it returns the empty list. *)
Theorem load_index_filters_decoded :
  (forall (predicate : IndexEntry -> bool) (db : WikiDb),
     fst (load_index predicate db)
     = filter_decoded predicate (tf_lines (index_file db)))
  /\ (forall (predicate : IndexEntry -> bool) (wiki : BinFile) (m : gmap Z Z),
        fst (load_index predicate (mkWikiDb (open_text "") wiki m)) = OK []).
Proof.
  assert (forall predicate db,
            fst (load_index predicate db)
            = filter_decoded predicate (tf_lines (index_file db))) as Hall.
  { intros predicate db. unfold load_index, bind, index_seek0, index_iter.
    cbn [fst snd index_file tf_lines tf_pos]. rewrite drop_0.
    rewrite load_index_loop_decoded. unfold filter_decoded, exc_map.
    by destruct (decode_all _). }
  split; [exact Hall |].
  intros predicate wiki m. rewrite Hall. reflexivity.
Qed.

(** ** The offset map *)

(** The loop reads the offsets off the lines and treats them as
    [offsets_scan] does; it leaves the archive alone. *)
Lemma load_offset_map_loop_scan (lines : list string) (offsets : list Z)
    (m : gmap Z Z) (previous : Z) (db : WikiDb) :
  Forall2 line_has_offset lines offsets ->
  exists db',
    load_offset_map_loop lines m previous db
    = (OK (offsets_scan offsets m previous), db')
    /\ wiki_file db' = wiki_file db.
Proof.
  intros Hlines. revert m previous db.
  induction Hlines as [|line o lines offsets Hline _ IH]; intros m previous db.
  - exists db. done.
  - cbn [load_offset_map_loop offsets_scan].
    unfold bind at 1. unfold index_next at 1.
    unfold line_has_offset in Hline.
    destruct (split_index_parts line) as [file_offset_str rest].
    cbn [fst] in Hline. unfold bind at 1. unfold lift at 1. rewrite Hline.
    set (db1 := mkWikiDb _ _ _).
    destruct (negb (o =? (if previous =? -1 then o else previous))).
    + destruct (IH (<[(if previous =? -1 then o else previous) := o]> m) o db1)
        as (db' & -> & Hw). exists db'. done.
    + destruct (IH m (if previous =? -1 then o else previous) db1)
        as (db' & -> & Hw). exists db'. done.
Qed.

Lemma offsets_scan_repeat (n : nat) (o : Z) (rest : list Z) (m : gmap Z Z) :
  o <> -1 ->
  offsets_scan (replicate n o ++ rest) m o = offsets_scan rest m o.
Proof.
  intros Ho. induction n as [|n IH]; [done |].
  cbn [replicate app offsets_scan].
  destruct (Z.eqb_spec o (-1)); [done |].
  rewrite Z.eqb_refl. exact IH.
Qed.

(** The first line of the index only sets [previous]. *)
Lemma offsets_scan_first_group (n : nat) (o : Z) (rest : list Z) (m : gmap Z Z) :
  o <> -1 ->
  offsets_scan (replicate (S n) o ++ rest) m (-1) = offsets_scan rest m o.
Proof.
  intros Ho. cbn [replicate app offsets_scan].
  rewrite Z.eqb_refl. cbn [negb]. by apply offsets_scan_repeat.
Qed.

(** A new offset closes the range of the previous one. *)
Lemma offsets_scan_next_group (n : nat) (o previous : Z) (rest : list Z)
    (m : gmap Z Z) :
  o <> -1 -> previous <> -1 -> previous <> o ->
  offsets_scan (replicate (S n) o ++ rest) m previous
  = offsets_scan rest (<[previous := o]> m) o.
Proof.
  intros Ho Hp Hne. cbn [replicate app offsets_scan].
  destruct (Z.eqb_spec previous (-1)); [done |].
  destruct (Z.eqb_spec o previous); [congruence |].
  cbn [negb]. by apply offsets_scan_repeat.
Qed.

Lemma offsets_scan_groups (groups : list (Z * nat)) (previous total : Z)
    (m : gmap Z Z) :
  NoDup (previous :: map fst groups) ->
  Forall (fun o => o <> -1) (previous :: map fst groups) ->
  (let '(m', p) := offsets_scan (repeated_offsets groups) m previous in
   <[p := total]> m')
  = ranges previous (map fst groups) total m.
Proof.
  revert previous m. induction groups as [|[o n] groups IH]; intros previous m Hnd Hne.
  - done.
  - cbn [repeated_offsets flat_map map fst snd ranges] in *.
    apply NoDup_cons in Hnd as [Hnotin Hnd].
    apply Forall_cons in Hne as [Hp Hne].
    pose proof (Forall_inv Hne) as Ho. cbn beta in Ho.
    rewrite offsets_scan_next_group; [| done | done |].
    + apply (IH o); done.
    + intros ->. apply Hnotin. left.
Qed.

(** A key outside the run keeps its value. *)
Lemma ranges_lookup_other (previous total k : Z) (offsets : list Z) (m : gmap Z Z) :
  k ∉ previous :: offsets ->
  ranges previous offsets total m !! k = m !! k.
Proof.
  revert previous m. induction offsets as [|o offsets IH]; intros previous m Hk.
  - cbn [ranges]. rewrite lookup_insert_ne; [done |].
    intros ->. apply Hk. left.
  - cbn [ranges]. rewrite IH.
    + rewrite lookup_insert_ne; [done |]. intros ->. apply Hk. left.
    + intros Hin. apply Hk. by right.
Qed.

(** Every offset of the run is mapped to its successor, the last one to
    [total]. *)
Lemma ranges_lookup (previous total : Z) (offsets : list Z) (m : gmap Z Z)
    (i : nat) (o : Z) :
  NoDup (previous :: offsets) ->
  (previous :: offsets) !! i = Some o ->
  ranges previous offsets total m !! o
  = Some (default total ((previous :: offsets) !! S i)).
Proof.
  revert previous m i. induction offsets as [|o1 offsets IH]; intros previous m i Hnd Hi.
  - destruct i as [|i]; [| done]. injection Hi as ->.
    cbn [ranges]. by rewrite lookup_insert_eq.
  - cbn [ranges]. destruct i as [|i].
    + injection Hi as ->. apply NoDup_cons in Hnd as [Hnotin _].
      rewrite ranges_lookup_other by done.
      by rewrite lookup_insert_eq.
    + apply NoDup_cons in Hnd as [_ Hnd]. by apply IH.
Qed.

Lemma strictly_sorted_NoDup (l : list Z) : StronglySorted Z.lt l -> NoDup l.
Proof.
  induction 1 as [|x l _ IH Hall]; constructor; [| done].
  intros Hin. rewrite Forall_forall in Hall. specialize (Hall x Hin). lia.
Qed.

(** What [__load_offset_map] returns on an index whose lines carry the
    given groups of offsets. *)
Lemma load_offset_map_groups (db : WikiDb) (groups : list (Z * nat)) :
  0 <= bf_pos (wiki_file db) ->
  Forall2 line_has_offset (tf_lines (index_file db)) (repeated_offsets groups) ->
  fst (load_offset_map db)
  = OK (let '(m, p) := offsets_scan (repeated_offsets groups) ∅ (-1) in
        <[p := BinIO.size (wiki_file db)]> m).
Proof.
  intros Hpos Hlines. unfold load_offset_map.
  unfold bind at 1. unfold index_seek0 at 1.
  unfold bind at 1. unfold index_iter at 1.
  cbn [index_file tf_lines tf_pos]. rewrite drop_0.
  set (db0 := mkWikiDb _ _ _).
  destruct (load_offset_map_loop_scan _ _ ∅ (-1) db0 Hlines) as (db' & Hloop & Hw).
  unfold bind at 1. rewrite Hloop.
  destruct (offsets_scan (repeated_offsets groups) ∅ (-1)) as [m p].
  unfold bind, on_wiki_file. rewrite Hw. subst db0. cbn [wiki_file].
  rewrite (get_file_size_size _ Hpos). done.
Qed.

(** C2: when the start offsets of the index, in file order, are the distinct
    byte offsets o0 < o1 < ... < on, each standing on one or more consecutive
    lines, the map built for an archive of size S sends every oi with i < n
    to o(i+1) and on to S, however often the lines repeat an offset. *)
Theorem load_offset_map_ranges (db : WikiDb) (groups : list (Z * nat)) :
  0 <= bf_pos (wiki_file db) ->
  Forall2 line_has_offset (tf_lines (index_file db)) (repeated_offsets groups) ->
  StronglySorted Z.lt (map fst groups) ->
  Forall (fun o => 0 <= o) (map fst groups) ->
  exists m : gmap Z Z,
    fst (load_offset_map db) = OK m
    /\ forall (i : nat) (o : Z),
         map fst groups !! i = Some o ->
         m !! o = Some (default (BinIO.size (wiki_file db))
                                (map fst groups !! S i)).
Proof.
  intros Hpos Hlines Hsorted Hnonneg.
  rewrite (load_offset_map_groups db groups Hpos Hlines).
  eexists; split; [reflexivity |].
  destruct groups as [|[o0 n0] groups]; [done |].
  cbn [map fst] in *. intros i o Hi.
  cbn [repeated_offsets flat_map fst snd].
  assert (Forall (fun o => o <> -1) (o0 :: map fst groups)) as Hne.
  { eapply Forall_impl; [exact Hnonneg |]. cbn beta. intros; lia. }
  rewrite offsets_scan_first_group by (by apply Forall_inv in Hne).
  pose proof (strictly_sorted_NoDup _ Hsorted) as Hnd.
  change (flat_map _ groups) with (repeated_offsets groups).
  rewrite (offsets_scan_groups groups o0 _ ∅ Hnd Hne).
  by apply ranges_lookup.
Qed.

Lemma load_offset_map_ranges_witness :
  exists m : gmap Z Z,
    fst (load_offset_map
           (mkWikiDb (open_text Demo.index) (open_bin Demo.archive) ∅)) = OK m
    /\ m !! 0 = Some 122 /\ m !! 122 = Some 187.
Proof.
  destruct (load_offset_map_ranges
              (mkWikiDb (open_text Demo.index) (open_bin Demo.archive) ∅)
              [(0, 1%nat); (122, 0%nat)]) as (m & Hm & Hlookup).
  - simpl. lia.
  - repeat constructor.
  - simpl. repeat constructor; lia.
  - simpl. repeat constructor; lia.
  - exists m. split; [exact Hm |]. split.
    + exact (Hlookup 0%nat 0 eq_refl).
    + exact (Hlookup 1%nat 122 eq_refl).
Defined.

(** C9: on an index without lines the loop never runs, [previous] keeps its
    initial value -1, and the closing assignment stores the archive size
    under the key -1: the map is not empty. *)
Theorem load_offset_map_empty_index (wiki : list byte) :
  fst (load_offset_map (mkWikiDb (open_text "") (open_bin wiki) ∅))
  = OK {[ -1 := Z.of_nat (length wiki) ]}.
Proof.
  rewrite (load_offset_map_groups _ []); [done | simpl; lia | constructor].
Qed.

(** ** Loading an article *)

Section ChunkStoreProperties.
Context `{Collaborators}.

Lemma block_length (db : WikiDb) (begin size : Z) :
  0 <= begin -> 0 <= size ->
  Z.of_nat (length (block db begin size))
  = Z.min size (Z.max 0 (BinIO.size (wiki_file db) - begin)).
Proof.
  intros Hb Hs. unfold block, BinIO.size.
  rewrite length_take, length_drop. lia.
Qed.

(** [__load_chunk] on a known offset: a seek, one read that cannot fail,
    and the two decoding steps on what was read. *)
Lemma load_chunk_known (entry : IndexEntry) (db : WikiDb) (end_ : Z) :
  offset_map db !! file_offset entry = Some end_ ->
  0 <= file_offset entry <= end_ ->
  fst (load_chunk entry db)
  = exc_bind (bz2_decompress (block db (file_offset entry)
                                       (end_ - file_offset entry)))
             utf8_decode.
Proof.
  intros Hkey [Hb He]. unfold load_chunk.
  unfold bind at 1. unfold offset_map_getitem at 1. rewrite Hkey.
  unfold bind at 1. unfold on_wiki_file at 1. unfold BinIO.seek.
  destruct (Z.ltb_spec (file_offset entry) 0); [lia |].
  unfold bind at 1. unfold on_wiki_file at 1. unfold BinIO.read.
  cbn [wiki_file bf_pos bf_data].
  destruct (Z.ltb_spec (end_ - file_offset entry) (-1)); [lia |].
  destruct (Z.ltb_spec (end_ - file_offset entry) 0); [lia |].
  fold (block db (file_offset entry) (end_ - file_offset entry)).
  unfold bind, lift, ret.
  destruct (bz2_decompress _) as [data |]; [| done]. cbn [exc_bind].
  by destruct (utf8_decode data).
Qed.

Lemma load_chunk_unknown (entry : IndexEntry) (db : WikiDb) :
  offset_map db !! file_offset entry = None ->
  load_chunk entry db = (Raise (KeyError (file_offset entry)), db).
Proof.
  intros Hkey. unfold load_chunk, bind, offset_map_getitem. by rewrite Hkey.
Qed.

(** [load_article] is [__load_chunk] followed by the steps on the text. *)
Lemma load_article_of_chunk (entry : IndexEntry) (db : WikiDb) :
  fst (load_article entry db)
  = exc_bind (fst (load_chunk entry db)) (article_of_chunk entry).
Proof.
  unfold load_article. unfold bind at 1.
  destruct (load_chunk entry db) as [[chunk | e] db']; [| done].
  cbn [fst exc_bind]. unfold article_of_chunk, bind, lift, ret.
  destruct (ET_fromstring _) as [root |]; [| done]. cbn [exc_bind].
  destruct (next_filter _ _) as [page |]; [| done]. cbn [exc_bind].
  by destruct (find ["revision"; "text"] page).
Qed.

Lemma is_match_record_id (entry : IndexEntry) (page : Element) :
  is_match entry page
  = exc_map (fun id => id =? page_id entry) (record_id page).
Proof.
  unfold is_match, record_id.
  destruct (find ["id"] page) as [id_element |]; [| done].
  by destruct (text id_element).
Qed.

(** The search runs past the records with another identifier. *)
Lemma next_filter_skip (entry : IndexEntry) (pre rest : list Element) :
  Forall (fun page => exists id, record_id page = OK id /\ id <> page_id entry) pre ->
  next_filter (is_match entry) (pre ++ rest) = next_filter (is_match entry) rest.
Proof.
  induction 1 as [|page pre (id & Hid & Hne) _ IH]; [done |].
  cbn [app next_filter]. rewrite is_match_record_id, Hid.
  unfold exc_map. cbn [exc_bind].
  destruct (Z.eqb_spec id (page_id entry)); [done | exact IH].
Qed.

(** C1 (as the code has it): when the chunk of the entry loads and parses
    into records, and the first record whose identifier equals the entry's
    article id has the raw markup body [body], [load_article] returns the
    document [mwp.parse] makes of that body: the parsed structure, not the
    text. *)
Theorem load_article_returns_parsed_body (entry : IndexEntry) (db : WikiDb)
    (chunk : string) (root page : Element) (pre post : list Element)
    (body : option string) :
  fst (load_chunk entry db) = OK chunk ->
  ET_fromstring ("<root>" ++ chunk ++ "</root>") = OK root ->
  children root = (pre ++ page :: post)%list ->
  Forall (fun p => exists id, record_id p = OK id /\ id <> page_id entry) pre ->
  record_id page = OK (page_id entry) ->
  record_body page = Some body ->
  fst (load_article entry db) = OK (VWikicode (mwp_parse body)).
Proof.
  intros Hchunk Hroot Hchildren Hpre Hid Hbody.
  rewrite load_article_of_chunk, Hchunk. cbn [exc_bind].
  unfold article_of_chunk. rewrite Hroot. cbn [exc_bind].
  rewrite Hchildren, (next_filter_skip entry pre _ Hpre).
  cbn [next_filter]. rewrite is_match_record_id, Hid.
  unfold exc_map. cbn [exc_bind]. rewrite Z.eqb_refl. cbn [exc_bind].
  unfold record_body in Hbody.
  destruct (find ["revision"; "text"] page) as [text_element |]; [| done].
  cbn [option_map] in Hbody. injection Hbody as <-. done.
Qed.

(** C6: [load_article] raises [KeyError] (the unknown-chunk-offset failure)
    when the entry's offset is no key of the offset map, and
    [StopIteration] (the article-not-found failure) when the chunk loads and
    parses into records none of which has the entry's article id. *)
Theorem load_article_failures (entry : IndexEntry) (db : WikiDb) :
  (offset_map db !! file_offset entry = None ->
   fst (load_article entry db) = Raise (KeyError (file_offset entry)))
  /\ (forall (chunk : string) (root : Element),
        fst (load_chunk entry db) = OK chunk ->
        ET_fromstring ("<root>" ++ chunk ++ "</root>") = OK root ->
        Forall (fun p => exists id, record_id p = OK id /\ id <> page_id entry)
               (children root) ->
        fst (load_article entry db) = Raise StopIteration).
Proof.
  split.
  - intros Hkey. rewrite load_article_of_chunk, (load_chunk_unknown _ _ Hkey). done.
  - intros chunk root Hchunk Hroot Hnone.
    rewrite load_article_of_chunk, Hchunk. cbn [exc_bind].
    unfold article_of_chunk. rewrite Hroot. cbn [exc_bind].
    rewrite <- (app_nil_r (children root)), (next_filter_skip entry _ [] Hnone).
    done.
Qed.

(** C7 (as the code has it): for an entry whose offset [begin] maps to
    [end], [load_article] seeks to [begin] and reads the bytes of the archive
    from there up to [end]: exactly [end - begin] bytes when the archive has
    them, and the fewer bytes that remain when it is shorter. The read
    raises nothing in either case; what was read goes to the decompressor
    and decides the outcome. *)
Theorem load_article_reads_block (entry : IndexEntry) (db : WikiDb) (end_ : Z) :
  offset_map db !! file_offset entry = Some end_ ->
  0 <= file_offset entry <= end_ ->
  let begin := file_offset entry in
  let size := end_ - begin in
  fst (load_article entry db) = article_of_block entry (block db begin size)
  /\ (begin + size <= BinIO.size (wiki_file db) ->
      Z.of_nat (length (block db begin size)) = size)
  /\ (BinIO.size (wiki_file db) < begin + size ->
      Z.of_nat (length (block db begin size))
      = Z.max 0 (BinIO.size (wiki_file db) - begin)).
Proof.
  intros Hkey Hrange begin size. subst begin size.
  split; [| split].
  - rewrite load_article_of_chunk, (load_chunk_known _ _ _ Hkey Hrange).
    unfold article_of_block.
    destruct (bz2_decompress _) as [data |]; [| done]. cbn [exc_bind].
    by destruct (utf8_decode data).
  - intros Hfits. rewrite block_length; lia.
  - intros Hshort. rewrite block_length; lia.
Qed.

End ChunkStoreProperties.

(** ** The database of the demonstration instance *)

#[local] Existing Instance Demo.collaborators.

Example demo_short_offset_map :
  offset_map Demo.short_db = {[ 0 := 200; 200 := 122 ]}.
Proof. vm_compute. reflexivity. Qed.

Lemma load_article_returns_parsed_body_witness :
  offset_map Demo.db !! 0 = Some 122
  /\ record_id (Demo.page "2" "Meow") = OK 2
  /\ record_body (Demo.page "2" "Meow") = Some (Some "Meow")
  /\ fst (load_article (mkIndexEntry 0 2 "Cat") Demo.db)
     = OK (@VWikicode Demo.collaborators ["Meow"]).
Proof.
  split; [vm_compute; reflexivity |].
  split; [vm_compute; reflexivity |].
  split; [vm_compute; reflexivity |].
  change (@VWikicode Demo.collaborators ["Meow"])
    with (VWikicode (mwp_parse (Some "Meow"))).
  apply (load_article_returns_parsed_body
           (mkIndexEntry 0 2 "Cat") Demo.db Demo.chunk_a Demo.root_a
           (Demo.page "2" "Meow") [Demo.page "1" "Woof"] [] (Some "Meow")).
  - vm_compute; reflexivity.
  - vm_compute; reflexivity.
  - reflexivity.
  - constructor; [| constructor].
    exists 1. split; [vm_compute; reflexivity | cbn; lia].
  - vm_compute; reflexivity.
  - vm_compute; reflexivity.
Defined.

(** C1, as the specification words it, fails: for the entry of article 3,
    whose offset is a key of the map and whose record has the body
    [Six legs], [load_article] returns a parsed document and not that
    text. *)
Lemma load_article_returns_raw_body_counterexample :
  offset_map Demo.db !! 122 = Some 187
  /\ record_id (Demo.page "3" "Six legs") = OK 3
  /\ record_body (Demo.page "3" "Six legs") = Some (Some "Six legs")
  /\ fst (load_article (mkIndexEntry 122 3 "Ant") Demo.db)
     = OK (@VWikicode Demo.collaborators ["Six legs"])
  /\ fst (load_article (mkIndexEntry 122 3 "Ant") Demo.db)
     <> OK (@VStr Demo.collaborators "Six legs").
Proof.
  split; [vm_compute; reflexivity |].
  split; [vm_compute; reflexivity |].
  split; [vm_compute; reflexivity |].
  assert (fst (load_article (mkIndexEntry 122 3 "Ant") Demo.db)
          = OK (@VWikicode Demo.collaborators ["Six legs"])) as Hrun
    by (vm_compute; reflexivity).
  split; [exact Hrun |]. rewrite Hrun. discriminate.
Qed.

Lemma load_article_failures_witness :
  offset_map Demo.db !! 5 = None
  /\ fst (load_article (mkIndexEntry 5 1 "Dog") Demo.db) = Raise (KeyError 5)
  /\ fst (load_chunk (mkIndexEntry 0 7 "Bird") Demo.db) = OK Demo.chunk_a
  /\ fst (load_article (mkIndexEntry 0 7 "Bird") Demo.db) = Raise StopIteration.
Proof.
  split; [vm_compute; reflexivity |].
  split.
  { apply (proj1 (load_article_failures (mkIndexEntry 5 1 "Dog") Demo.db)).
    vm_compute; reflexivity. }
  split; [vm_compute; reflexivity |].
  apply (proj2 (load_article_failures (mkIndexEntry 0 7 "Bird") Demo.db)
           Demo.chunk_a Demo.root_a).
  - vm_compute; reflexivity.
  - vm_compute; reflexivity.
  - constructor; [| constructor; [| constructor]].
    + exists 1. split; [vm_compute; reflexivity | cbn; lia].
    + exists 2. split; [vm_compute; reflexivity | cbn; lia].
Defined.

Lemma load_article_reads_block_witness :
  offset_map Demo.db !! 122 = Some 187
  /\ fst (load_article (mkIndexEntry 122 3 "Ant") Demo.db)
     = article_of_block (mkIndexEntry 122 3 "Ant") (block Demo.db 122 65)
  /\ Z.of_nat (length (block Demo.db 122 65)) = 65.
Proof.
  split; [vm_compute; reflexivity |].
  destruct (load_article_reads_block (mkIndexEntry 122 3 "Ant") Demo.db 187)
    as (Hrun & Hfull & _).
  - vm_compute; reflexivity.
  - cbn; lia.
  - split; [exact Hrun |]. apply Hfull. vm_compute. discriminate.
Defined.

(** C7, as the specification words it, fails: the archive holds 122 bytes,
    the range of the entry asks for 200 from offset 0, the read hands back
    the 122 bytes there are without raising, and [load_article] returns an
    article. *)
Lemma load_article_truncated_counterexample :
  offset_map Demo.short_db !! 0 = Some 200
  /\ BinIO.size (wiki_file Demo.short_db) = 122
  /\ fst (BinIO.read 200 (mkBinFile Demo.short_archive 0))
     = OK Demo.short_archive
  /\ fst (load_article (mkIndexEntry 0 1 "Dog") Demo.short_db)
     = OK (@VWikicode Demo.collaborators ["Woof"]).
Proof. repeat split; vm_compute; reflexivity. Qed.

(** * Further properties of the code *)

(** ** Splitting *)

(** X1: on a line with a separator, [split_index_parts] cuts at the first
    one: the two parts put back around a separator give the line, the first
    part has no separator, and the second keeps all the others. *)
Theorem split_index_parts_rejoins (line : string) :
  count_separators line <> 0%nat ->
  line = fst (split_index_parts line) ++ ":" ++ snd (split_index_parts line)
  /\ count_separators (fst (split_index_parts line)) = 0%nat
  /\ count_separators line = S (count_separators (snd (split_index_parts line))).
Proof.
  intros Hline.
  destruct (first_separator_split line Hline) as (a & b & -> & Ha & Hb).
  rewrite (split_index_parts_first a b Ha). cbn [fst snd]. done.
Qed.

Lemma split_index_parts_rejoins_witness :
  count_separators "12:345:About C:\System32" <> 0%nat
  /\ ("12:345:About C:\System32"
      = fst (split_index_parts "12:345:About C:\System32") ++ ":"
        ++ snd (split_index_parts "12:345:About C:\System32")
      /\ count_separators (fst (split_index_parts "12:345:About C:\System32"))
         = 0%nat
      /\ count_separators "12:345:About C:\System32"
         = S (count_separators
                (snd (split_index_parts "12:345:About C:\System32")))).
Proof.
  assert (count_separators "12:345:About C:\System32" <> 0%nat) as Hne
    by (vm_compute; discriminate).
  split; [exact Hne |].
  exact (split_index_parts_rejoins "12:345:About C:\System32" Hne).
Defined.

(** X2: on a line without separator, [split_index_parts] returns the line
    less its last character as first part and the whole line as second part;
    splitting the second part again therefore gives the same pair. *)
Theorem split_index_parts_without_separator (line : string) :
  count_separators line = 0%nat ->
  snd (split_index_parts line) = line
  /\ split_index_parts (snd (split_index_parts line)) = split_index_parts line
  /\ (line = "" /\ fst (split_index_parts line) = ""
      \/ exists c, line = fst (split_index_parts line) ++ String c "").
Proof.
  intros Hline. rewrite (split_index_parts_absent line Hline). cbn [fst snd].
  split; [done |]. split; [by rewrite (split_index_parts_absent line Hline) |].
  destruct line as [|x line]; [by left |].
  right. by apply take_all_but_last.
Qed.

Lemma split_index_parts_without_separator_witness :
  count_separators "Dog" = 0%nat
  /\ snd (split_index_parts "Dog") = "Dog"
  /\ split_index_parts (snd (split_index_parts "Dog")) = split_index_parts "Dog"
  /\ ("Dog" = "" /\ fst (split_index_parts "Dog") = ""
      \/ exists c, "Dog" = fst (split_index_parts "Dog") ++ String c "").
Proof.
  split; [reflexivity |].
  exact (split_index_parts_without_separator "Dog" eq_refl).
Defined.

(** ** The title predicates *)

Lemma starts_with_prefix (prefix s : string) :
  starts_with prefix s = true <-> exists b, s = prefix ++ b.
Proof.
  revert s; induction prefix as [|a prefix IH]; intros s.
  - simpl. split; [intros _; by exists s | done].
  - destruct s as [|b s]; simpl.
    + split; [done | intros [? ?]; done].
    + rewrite andb_true_iff, Ascii.eqb_eq, IH. split.
      * intros [-> [t ->]]. by exists t.
      * intros [t [= -> ->]]. split; [done | by exists t].
Qed.

Lemma str_contains_infix (needle hay : string) :
  str_contains needle hay = true <-> exists a b, hay = a ++ needle ++ b.
Proof.
  induction hay as [|c hay IH].
  - simpl. rewrite orb_false_r, starts_with_prefix. split.
    + intros [b Hb]. by exists "", b.
    + intros (a & b & Hab). destruct a as [|x a]; [by exists b | done].
  - cbn [str_contains]. rewrite orb_true_iff, starts_with_prefix, IH. split.
    + intros [[b Hb] | (a & b & ->)].
      * by exists "", b.
      * by exists (String c a), b.
    + intros (a & b & Hab). destruct a as [|x a].
      * left. by exists b.
      * right. simpl in Hab. injection Hab as -> ->. by exists a, b.
Qed.

(** X3: the substring predicate accepts exactly the entries whose title
    holds the text at some position, characters compared as they are; the
    empty text is found in every title. *)
Theorem contains_substr_predicate_spec :
  (forall (text : string) (entry : IndexEntry),
     contains_substr_predicate text entry = true
     <-> exists a b, article_name entry = a ++ text ++ b)
  /\ (forall entry : IndexEntry, contains_substr_predicate "" entry = true)
  /\ (forall o i : Z,
        contains_substr_predicate "C++" (mkIndexEntry o i "The C++ language") = true
        /\ contains_substr_predicate "c++" (mkIndexEntry o i "The C++ language") = false).
Proof.
  split; [| split].
  - intros text entry. apply str_contains_infix.
  - intros entry. apply str_contains_infix. by exists "", (article_name entry).
  - intros o i. split; reflexivity.
Qed.

(** X4: the smart-exact predicate built from a text always accepts the title
    equal to that text, and whatever it accepts equals the text up to
    case. *)
Theorem exact_match_smart_predicate_sound (text : string) (entry : IndexEntry) :
  (article_name entry = text -> exact_match_smart_predicate text entry = true)
  /\ (exact_match_smart_predicate text entry = true ->
      PyStr.lower (article_name entry) = PyStr.lower text).
Proof.
  unfold exact_match_smart_predicate.
  destruct (String.eqb text (PyStr.lower text)); rewrite String.eqb_eq;
    split; congruence.
Qed.

Lemma exact_match_smart_predicate_sound_witness :
  exact_match_smart_predicate "Ant" (mkIndexEntry 122 3 "Ant") = true
  /\ PyStr.lower "Ant" = PyStr.lower "Ant".
Proof.
  pose proof (proj1 (exact_match_smart_predicate_sound
                       "Ant" (mkIndexEntry 122 3 "Ant")) eq_refl) as Hself.
  split; [exact Hself |].
  exact (proj2 (exact_match_smart_predicate_sound
                  "Ant" (mkIndexEntry 122 3 "Ant")) Hself).
Defined.

(** ** Searching the index *)

Lemma advance_index_next (n : nat) (db : WikiDb) :
  advance_index n (snd (index_next db)) = advance_index (S n) db.
Proof.
  unfold advance_index, index_next. cbn [snd index_file tf_lines tf_pos wiki_file offset_map].
  by rewrite Nat.add_succ_r.
Qed.

Lemma load_index_single_loop_found (predicate : IndexEntry -> bool)
    (pre post : list string) (line : string) (entry : IndexEntry) (db : WikiDb) :
  Forall (skipped predicate) pre ->
  parse_index_line line = OK entry -> predicate entry = true ->
  load_index_single_loop predicate (pre ++ line :: post) db
  = (OK (Some entry), advance_index (S (length pre)) db).
Proof.
  intros Hpre Hline Hyes. revert db.
  induction Hpre as [|x pre (e & Hx & Hno) _ IH]; intros db.
  - cbn [app load_index_single_loop length]. unfold bind, index_next, lift.
    rewrite Hline, Hyes. done.
  - cbn [app load_index_single_loop length]. unfold bind at 1.
    change (index_next db) with (OK tt, snd (index_next db)). cbv iota.
    unfold bind at 1. unfold lift at 1. rewrite Hx, Hno.
    rewrite IH. by rewrite advance_index_next.
Qed.

Lemma load_index_single_loop_error (predicate : IndexEntry -> bool)
    (pre post : list string) (line : string) (e : exn) (db : WikiDb) :
  Forall (skipped predicate) pre ->
  parse_index_line line = Raise e ->
  load_index_single_loop predicate (pre ++ line :: post) db
  = (Raise e, advance_index (S (length pre)) db).
Proof.
  intros Hpre Hline. revert db.
  induction Hpre as [|x pre (e' & Hx & Hno) _ IH]; intros db.
  - cbn [app load_index_single_loop length]. unfold bind, index_next, lift.
    rewrite Hline. done.
  - cbn [app load_index_single_loop length]. unfold bind at 1.
    change (index_next db) with (OK tt, snd (index_next db)). cbv iota.
    unfold bind at 1. unfold lift at 1. rewrite Hx, Hno.
    rewrite IH. by rewrite advance_index_next.
Qed.

Lemma load_index_single_loop_none (predicate : IndexEntry -> bool)
    (lines : list string) (db : WikiDb) :
  Forall (skipped predicate) lines ->
  load_index_single_loop predicate lines db
  = (OK None, advance_index (length lines) db).
Proof.
  intros Hlines. revert db.
  induction Hlines as [|x lines (e & Hx & Hno) _ IH]; intros db.
  - cbn [load_index_single_loop length]. unfold ret, advance_index.
    by destruct db as [[? ?] ? ?].
  - cbn [load_index_single_loop length]. unfold bind at 1.
    change (index_next db) with (OK tt, snd (index_next db)). cbv iota.
    unfold bind at 1. unfold lift at 1. rewrite Hx, Hno.
    rewrite IH. by rewrite advance_index_next.
Qed.

(** Both search loops only move the index cursor. *)
Lemma load_index_loop_state (predicate : IndexEntry -> bool)
    (lines : list string) (entries : list IndexEntry) (db : WikiDb) :
  exists n : nat,
    snd (load_index_loop predicate lines entries db) = advance_index n db
    /\ (forall es, fst (load_index_loop predicate lines entries db) = OK es ->
        n = length lines).
Proof.
  revert entries db; induction lines as [|line lines IH]; intros entries db.
  - exists 0%nat. cbn [load_index_loop]. unfold ret, advance_index.
    split; [by destruct db as [[? ?] ? ?] | done].
  - cbn [load_index_loop]. unfold bind at 1.
    change (index_next db) with (OK tt, snd (index_next db)). cbv iota.
    unfold bind at 1. unfold lift at 1.
    destruct (parse_index_line line) as [entry | e].
    + destruct (IH (if predicate entry then (entries ++ [entry])%list else entries)
                   (snd (index_next db))) as (n & Hn & Hlen).
      exists (S n). rewrite Hn, advance_index_next. split; [done |].
      intros es Hes. cbn [length]. f_equal. by apply (Hlen es).
    + exists 1%nat. split; [| done]. cbn [snd].
      by rewrite <- advance_index_next.
Qed.

Lemma load_index_single_loop_state (predicate : IndexEntry -> bool)
    (lines : list string) (db : WikiDb) :
  exists n : nat,
    snd (load_index_single_loop predicate lines db) = advance_index n db.
Proof.
  revert db; induction lines as [|line lines IH]; intros db.
  - exists 0%nat. cbn [load_index_single_loop]. unfold ret, advance_index.
    by destruct db as [[? ?] ? ?].
  - cbn [load_index_single_loop]. unfold bind at 1.
    change (index_next db) with (OK tt, snd (index_next db)). cbv iota.
    unfold bind at 1. unfold lift at 1.
    destruct (parse_index_line line) as [entry | e].
    + destruct (predicate entry).
      * exists 1%nat. unfold ret. cbn [snd]. by rewrite <- advance_index_next.
      * destruct (IH (snd (index_next db))) as (n & Hn).
        exists (S n). by rewrite Hn, advance_index_next.
    + exists 1%nat. cbn [snd]. by rewrite <- advance_index_next.
Qed.

(** What the single search returns depends on the lines only. *)
Lemma load_index_single_loop_decoded (predicate : IndexEntry -> bool)
    (lines : list string) (all : list IndexEntry) (db : WikiDb) :
  decode_all lines = OK all ->
  fst (load_index_single_loop predicate lines db)
  = OK (head (List.filter predicate all)).
Proof.
  revert all db; induction lines as [|line lines IH]; intros all db.
  - intros [= <-]. done.
  - cbn [decode_all load_index_single_loop]. unfold bind at 1.
    change (index_next db) with (OK tt, snd (index_next db)). cbv iota.
    unfold bind at 1. unfold lift at 1.
    destruct (parse_index_line line) as [entry | e]; [| done]. cbn [exc_bind].
    destruct (decode_all lines) as [rest |]; [| done].
    unfold exc_map. cbn [exc_bind]. intros [= <-]. cbn [List.filter].
    destruct (predicate entry); [done |]. by apply IH.
Qed.

Lemma load_index_single_loop_same (predicate : IndexEntry -> bool)
    (lines : list string) (db db' : WikiDb) :
  fst (load_index_single_loop predicate lines db)
  = fst (load_index_single_loop predicate lines db').
Proof.
  revert db db'; induction lines as [|line lines IH]; intros db db'; [done |].
  cbn [load_index_single_loop]. unfold bind at 1 3.
  change (index_next db) with (OK tt, snd (index_next db)).
  change (index_next db') with (OK tt, snd (index_next db')). cbv iota.
  unfold bind at 1 2. unfold lift at 1 2.
  destruct (parse_index_line line) as [entry | e]; [| done].
  destruct (predicate entry); [done | apply IH].
Qed.

Lemma load_index_decoded (predicate : IndexEntry -> bool) (db : WikiDb) :
  fst (load_index predicate db)
  = exc_map (List.filter predicate) (decode_all (tf_lines (index_file db))).
Proof.
  unfold load_index, bind, index_seek0, index_iter.
  cbn [fst snd index_file tf_lines tf_pos]. rewrite drop_0.
  rewrite load_index_loop_decoded. unfold exc_map.
  by destruct (decode_all _).
Qed.

Lemma load_index_single_run (predicate : IndexEntry -> bool) (db : WikiDb) :
  load_index_single predicate db
  = load_index_single_loop predicate (tf_lines (index_file db))
      (mkWikiDb (mkTextFile (tf_lines (index_file db)) 0)
                (wiki_file db) (offset_map db)).
Proof.
  unfold load_index_single, bind, index_seek0, index_iter.
  cbn [index_file tf_lines tf_pos]. by rewrite drop_0.
Qed.

(** X5: when [load_index] succeeds, [load_index_single] with the same
    predicate returns the first entry of its result, and [None] when that
    result is empty. *)
Theorem load_index_single_first_match (predicate : IndexEntry -> bool)
    (db : WikiDb) (es : list IndexEntry) :
  fst (load_index predicate db) = OK es ->
  fst (load_index_single predicate db) = OK (head es).
Proof.
  rewrite load_index_decoded, load_index_single_run.
  destruct (decode_all (tf_lines (index_file db))) as [all |] eqn:Hall; [| done].
  unfold exc_map. cbn [exc_bind]. intros [= <-].
  by apply load_index_single_loop_decoded.
Qed.

Lemma load_index_single_first_match_witness :
  fst (load_index (contains_substr_predicate "o") Demo.db)
  = OK [mkIndexEntry 0 1 "Dog"]
  /\ fst (load_index_single (contains_substr_predicate "o") Demo.db)
     = OK (Some (mkIndexEntry 0 1 "Dog")).
Proof.
  assert (fst (load_index (contains_substr_predicate "o") Demo.db)
          = OK [mkIndexEntry 0 1 "Dog"]) as Hall by (vm_compute; reflexivity).
  split; [exact Hall |].
  exact (load_index_single_first_match _ Demo.db _ Hall).
Defined.

(** X6: [load_index_single] stops at the first line whose entry the
    predicate accepts: it returns that entry and leaves the index cursor
    right after that line, and the lines after it are not decoded, so that
    none of them can make the search fail. *)
Theorem load_index_single_stops_at_match (predicate : IndexEntry -> bool)
    (db : WikiDb) (pre post : list string) (line : string) (entry : IndexEntry) :
  tf_lines (index_file db) = (pre ++ line :: post)%list ->
  Forall (skipped predicate) pre ->
  parse_index_line line = OK entry -> predicate entry = true ->
  fst (load_index_single predicate db) = OK (Some entry)
  /\ tf_pos (index_file (snd (load_index_single predicate db))) = S (length pre).
Proof.
  intros Hlines Hpre Hline Hyes.
  rewrite load_index_single_run, Hlines.
  rewrite (load_index_single_loop_found predicate pre post line entry _
             Hpre Hline Hyes).
  cbn [fst snd advance_index index_file tf_pos]. split; [done | lia].
Qed.

Lemma load_index_single_stops_at_match_witness :
  parse_index_line "no entry at all" = Raise ValueError
  /\ fst (load_index_single (exact_match_smart_predicate "cat")
            (mkWikiDb (mkTextFile ["0:1:Dog" ++ nl; "0:2:Cat" ++ nl;
                                   "no entry at all"] 0)
                      (open_bin []) ∅))
     = OK (Some (mkIndexEntry 0 2 "Cat"))
  /\ tf_pos (index_file (snd (load_index_single
            (exact_match_smart_predicate "cat")
            (mkWikiDb (mkTextFile ["0:1:Dog" ++ nl; "0:2:Cat" ++ nl;
                                   "no entry at all"] 0)
                      (open_bin []) ∅)))) = 2%nat.
Proof.
  split; [vm_compute; reflexivity |].
  apply (load_index_single_stops_at_match
           (exact_match_smart_predicate "cat") _
           ["0:1:Dog" ++ nl] ["no entry at all"] ("0:2:Cat" ++ nl)
           (mkIndexEntry 0 2 "Cat")).
  - reflexivity.
  - constructor; [| constructor].
    exists (mkIndexEntry 0 1 "Dog"). split; vm_compute; reflexivity.
  - vm_compute; reflexivity.
  - vm_compute; reflexivity.
Defined.

Lemma decode_all_prefix_error (pre post : list string) (line : string) (e : exn) :
  Forall (fun x => exists entry, parse_index_line x = OK entry) pre ->
  parse_index_line line = Raise e ->
  decode_all (pre ++ line :: post) = Raise e.
Proof.
  intros Hpre Hline. induction Hpre as [|x pre (entry & Hx) _ IH].
  - cbn [app decode_all]. by rewrite Hline.
  - cbn [app decode_all]. rewrite Hx. cbn [exc_bind]. by rewrite IH.
Qed.

Lemma parse_index_line_raises (line : string) (e : exn) :
  parse_index_line line = Raise e -> e = ValueError.
Proof.
  unfold parse_index_line.
  destruct (split_index_parts line) as [O tail].
  destruct (split_index_parts tail) as [I third].
  destruct (PyStr.int O) as [o | e1] eqn:HO; cbn [exc_bind].
  - destruct (PyStr.int I) as [i | e2] eqn:HI; cbn [exc_bind]; [done |].
    intros [= <-]. by apply (int_raises I).
  - intros [= <-]. by apply (int_raises O).
Qed.

(** X7: [load_index] decodes every line: the first line that does not
    decode makes the whole search fail with [ValueError], whatever the
    predicate is and however many entries matched before it. The only way
    [load_index] fails is this one. *)
Theorem load_index_fails_on_bad_line (predicate : IndexEntry -> bool) (db : WikiDb) :
  (forall (pre post : list string) (line : string) (e : exn),
     tf_lines (index_file db) = (pre ++ line :: post)%list ->
     Forall (fun x => exists entry, parse_index_line x = OK entry) pre ->
     parse_index_line line = Raise e ->
     fst (load_index predicate db) = Raise ValueError)
  /\ (forall e : exn, fst (load_index predicate db) = Raise e -> e = ValueError).
Proof.
  split.
  - intros pre post line e Hlines Hpre Hline.
    rewrite load_index_decoded, Hlines.
    rewrite (decode_all_prefix_error pre post line e Hpre Hline).
    by rewrite (parse_index_line_raises line e Hline).
  - intros e. rewrite load_index_decoded.
    generalize (tf_lines (index_file db)). intros lines. revert e.
    induction lines as [|line lines IH]; intros e; [done |].
    cbn [decode_all].
    destruct (parse_index_line line) as [entry | e1] eqn:Hline; cbn [exc_bind].
    + destruct (decode_all lines) as [rest | e2]; [done |].
      intros [= <-]. by apply IH.
    + intros [= <-]. by apply (parse_index_line_raises line).
Qed.

Lemma load_index_fails_on_bad_line_witness :
  parse_index_line nl = Raise ValueError
  /\ fst (load_index (contains_substr_predicate "Dog")
            (mkWikiDb (open_text ("0:1:Dog" ++ nl ++ nl)) (open_bin []) ∅))
     = Raise ValueError.
Proof.
  split; [vm_compute; reflexivity |].
  apply (proj1 (load_index_fails_on_bad_line (contains_substr_predicate "Dog") _)
           ["0:1:Dog" ++ nl] [] nl ValueError).
  - vm_compute; reflexivity.
  - constructor; [| constructor]. exists (mkIndexEntry 0 1 "Dog").
    vm_compute; reflexivity.
  - vm_compute; reflexivity.
Defined.

Lemma load_index_run (predicate : IndexEntry -> bool) (db : WikiDb) :
  load_index predicate db
  = load_index_loop predicate (tf_lines (index_file db)) []
      (mkWikiDb (mkTextFile (tf_lines (index_file db)) 0)
                (wiki_file db) (offset_map db)).
Proof.
  unfold load_index, bind, index_seek0, index_iter.
  cbn [index_file tf_lines tf_pos]. by rewrite drop_0.
Qed.

(** X8: [load_index] touches nothing but the cursor of the index file: the
    archive file with its cursor, the offset map and the lines of the index
    are as before; after a search that succeeds the cursor stands behind the
    last line. *)
Theorem load_index_moves_index_cursor_only (predicate : IndexEntry -> bool)
    (db : WikiDb) :
  wiki_file (snd (load_index predicate db)) = wiki_file db
  /\ offset_map (snd (load_index predicate db)) = offset_map db
  /\ tf_lines (index_file (snd (load_index predicate db)))
     = tf_lines (index_file db)
  /\ (forall es, fst (load_index predicate db) = OK es ->
      tf_pos (index_file (snd (load_index predicate db)))
      = length (tf_lines (index_file db))).
Proof.
  rewrite load_index_run.
  destruct (load_index_loop_state predicate (tf_lines (index_file db)) []
              (mkWikiDb (mkTextFile (tf_lines (index_file db)) 0)
                        (wiki_file db) (offset_map db))) as (n & -> & Hlen).
  cbn [advance_index index_file tf_lines tf_pos wiki_file offset_map].
  repeat split. intros es Hes. rewrite (Hlen es Hes). lia.
Qed.

(** X9: every search starts over from the first line: what [load_index] and
    [load_index_single] return is the same after an earlier search, complete
    or stopped half-way, as before it. *)
Theorem searches_start_over (p q : IndexEntry -> bool) (db : WikiDb) :
  fst (load_index p (snd (load_index_single q db))) = fst (load_index p db)
  /\ fst (load_index p (snd (load_index q db))) = fst (load_index p db)
  /\ fst (load_index_single p (snd (load_index q db)))
     = fst (load_index_single p db)
  /\ fst (load_index_single p (snd (load_index_single q db)))
     = fst (load_index_single p db).
Proof.
  assert (tf_lines (index_file (snd (load_index q db)))
          = tf_lines (index_file db)) as Hall.
  { rewrite load_index_run.
    destruct (load_index_loop_state q (tf_lines (index_file db)) []
                (mkWikiDb (mkTextFile (tf_lines (index_file db)) 0)
                          (wiki_file db) (offset_map db))) as (n & -> & _).
    done. }
  assert (tf_lines (index_file (snd (load_index_single q db)))
          = tf_lines (index_file db)) as Hone.
  { rewrite load_index_single_run.
    destruct (load_index_single_loop_state q (tf_lines (index_file db))
                (mkWikiDb (mkTextFile (tf_lines (index_file db)) 0)
                          (wiki_file db) (offset_map db))) as (n & ->).
    done. }
  split; [| split; [| split]].
  - by rewrite !load_index_decoded, Hone.
  - by rewrite !load_index_decoded, Hall.
  - rewrite !load_index_single_run, Hall. apply load_index_single_loop_same.
  - rewrite (load_index_single_run p (snd (load_index_single q db))), Hone.
    rewrite (load_index_single_run p db). apply load_index_single_loop_same.
Qed.

(** ** The offset map on any index *)

(** One turn of the loop of [__load_offset_map]. *)
Lemma load_offset_map_loop_step (line : string) (lines : list string)
    (m : gmap Z Z) (previous : Z) (db : WikiDb) :
  load_offset_map_loop (line :: lines) m previous db
  = match PyStr.int (fst (split_index_parts line)) with
    | OK o =>
        if negb (o =? (if previous =? -1 then o else previous))
        then load_offset_map_loop lines
               (<[(if previous =? -1 then o else previous) := o]> m) o
               (snd (index_next db))
        else load_offset_map_loop lines m
               (if previous =? -1 then o else previous) (snd (index_next db))
    | Raise e => (Raise e, snd (index_next db))
    end.
Proof.
  cbn [load_offset_map_loop]. unfold bind at 1.
  change (index_next db) with (OK tt, snd (index_next db)). cbv iota.
  destruct (split_index_parts line) as [file_offset_str rest]. cbn [fst].
  unfold bind at 1. unfold lift at 1.
  destruct (PyStr.int file_offset_str) as [o | e]; [| done].
  by destruct (negb (o =? (if previous =? -1 then o else previous))).
Qed.

(** The loop of [__load_offset_map] only moves the index cursor, by one
    line per line it reads. *)
Lemma load_offset_map_loop_state (lines : list string) (m : gmap Z Z)
    (previous : Z) (db : WikiDb) :
  exists n : nat,
    snd (load_offset_map_loop lines m previous db) = advance_index n db
    /\ (forall r, fst (load_offset_map_loop lines m previous db) = OK r ->
        n = length lines).
Proof.
  revert m previous db; induction lines as [|line lines IH]; intros m previous db.
  - exists 0%nat. cbn [load_offset_map_loop]. unfold ret, advance_index.
    split; [by destruct db as [[? ?] ? ?] | done].
  - rewrite load_offset_map_loop_step.
    destruct (PyStr.int (fst (split_index_parts line))) as [o | e].
    + destruct (negb (o =? (if previous =? -1 then o else previous))).
      * destruct (IH (<[(if previous =? -1 then o else previous) := o]> m) o
                     (snd (index_next db))) as (n & Hn & Hlen).
        exists (S n). rewrite Hn, advance_index_next. split; [done |].
        intros r Hr. cbn [length]. f_equal. by apply (Hlen r).
      * destruct (IH m (if previous =? -1 then o else previous)
                     (snd (index_next db))) as (n & Hn & Hlen).
        exists (S n). rewrite Hn, advance_index_next. split; [done |].
        intros r Hr. cbn [length]. f_equal. by apply (Hlen r).
    + exists 1%nat. split; [| done]. cbn [snd].
      by rewrite <- advance_index_next.
Qed.

(** [__load_offset_map] on an index whose lines carry the given offsets. *)
Lemma load_offset_map_offsets (db : WikiDb) (offsets : list Z) :
  0 <= bf_pos (wiki_file db) ->
  Forall2 line_has_offset (tf_lines (index_file db)) offsets ->
  fst (load_offset_map db)
  = OK (let '(m, p) := offsets_scan offsets ∅ (-1) in
        <[p := BinIO.size (wiki_file db)]> m).
Proof.
  intros Hpos Hlines. unfold load_offset_map.
  unfold bind at 1. unfold index_seek0 at 1.
  unfold bind at 1. unfold index_iter at 1.
  cbn [index_file tf_lines tf_pos]. rewrite drop_0.
  set (db0 := mkWikiDb _ _ _).
  destruct (load_offset_map_loop_scan _ _ ∅ (-1) db0 Hlines) as (db' & Hloop & Hw).
  unfold bind at 1. rewrite Hloop.
  destruct (offsets_scan offsets ∅ (-1)) as [m p].
  unfold bind, on_wiki_file. rewrite Hw. subst db0. cbn [wiki_file].
  rewrite (get_file_size_size _ Hpos). done.
Qed.

(** After a scan that started with a real offset in [previous]: the keys of
    the map together with [previous] are those before together with the
    offsets read, and [previous] is the last offset read. *)
Lemma offsets_scan_keys (offsets : list Z) (m : gmap Z Z) (previous : Z) :
  previous <> -1 -> Forall (fun o => o <> -1) offsets ->
  snd (offsets_scan offsets m previous) = default previous (last offsets)
  /\ forall k : Z,
       (is_Some (fst (offsets_scan offsets m previous) !! k)
        \/ k = snd (offsets_scan offsets m previous))
       <-> (is_Some (m !! k) \/ k = previous \/ k ∈ offsets).
Proof.
  intros Hp Hall. revert m previous Hp.
  induction Hall as [|o offsets Ho _ IH]; intros m previous Hp.
  - cbn [offsets_scan fst snd last default]. split; [done |].
    intros k. rewrite elem_of_nil. tauto.
  - cbn [offsets_scan]. destruct (Z.eqb_spec previous (-1)); [done |].
    destruct (Z.eqb_spec o previous) as [-> | Hne]; cbn [negb].
    + destruct (IH m previous Hp) as [Hlast Hkeys]. split.
      * rewrite Hlast, last_cons. by destruct (last offsets).
      * intros k. rewrite Hkeys, elem_of_cons. tauto.
    + destruct (IH (<[previous := o]> m) o Ho) as [Hlast Hkeys]. split.
      * rewrite Hlast, last_cons. by destruct (last offsets).
      * intros k. rewrite Hkeys, elem_of_cons.
        destruct (decide (k = previous)) as [-> | Hk].
        -- rewrite lookup_insert_eq. split; [tauto |]. intros _. left. by eexists.
        -- rewrite lookup_insert_ne by done. tauto.
Qed.

Lemma load_offset_map_unfold (db : WikiDb) :
  load_offset_map db
  = match load_offset_map_loop (tf_lines (index_file db)) ∅ (-1)
            (mkWikiDb (mkTextFile (tf_lines (index_file db)) 0)
                      (wiki_file db) (offset_map db)) with
    | (OK (m, p), db') =>
        match get_file_size (wiki_file db') with
        | (OK last_offset, f) =>
            (OK (<[p := last_offset]> m),
             mkWikiDb (index_file db') f (offset_map db'))
        | (Raise e, f) => (Raise e, mkWikiDb (index_file db') f (offset_map db'))
        end
    | (Raise e, db') => (Raise e, db')
    end.
Proof.
  unfold load_offset_map.
  unfold bind at 1. unfold index_seek0 at 1.
  unfold bind at 1. unfold index_iter at 1.
  cbn [index_file tf_lines tf_pos]. rewrite drop_0.
  unfold bind at 1.
  destruct (load_offset_map_loop _ _ _ _) as [[[m p] | e] db']; [| done].
  unfold bind, on_wiki_file, ret.
  by destruct (get_file_size (wiki_file db')) as [[last_offset | e] f].
Qed.

Lemma load_offset_map_run (db : WikiDb) :
  0 <= bf_pos (wiki_file db) ->
  exists n : nat,
    snd (load_offset_map db)
    = advance_index n (mkWikiDb (mkTextFile (tf_lines (index_file db)) 0)
                                (wiki_file db) (offset_map db))
    /\ (forall m, fst (load_offset_map db) = OK m ->
        n = length (tf_lines (index_file db))).
Proof.
  intros Hpos. rewrite load_offset_map_unfold.
  set (db0 := mkWikiDb _ _ _).
  destruct (load_offset_map_loop_state (tf_lines (index_file db)) ∅ (-1) db0)
    as (n & Hn & Hlen).
  exists n.
  destruct (load_offset_map_loop (tf_lines (index_file db)) ∅ (-1) db0)
    as [[[m p] | e] db']; cbn [fst snd] in *; [| done].
  subst db'. cbn [advance_index wiki_file]. subst db0. cbn [wiki_file].
  rewrite (get_file_size_size _ Hpos). cbn [fst snd index_file offset_map].
  split; [done |]. intros _ _. by apply (Hlen (m, p)).
Qed.

(** X10: whatever the order of the lines, when no offset of the index is -1
    the keys of the map [__load_offset_map] builds are exactly the offsets
    that occur in the index, and the offset of the last line is mapped to
    the size of the archive. *)
Theorem load_offset_map_keys (db : WikiDb) (offsets : list Z) :
  0 <= bf_pos (wiki_file db) ->
  Forall2 line_has_offset (tf_lines (index_file db)) offsets ->
  offsets <> [] ->
  Forall (fun o => o <> -1) offsets ->
  exists m : gmap Z Z,
    fst (load_offset_map db) = OK m
    /\ (forall k : Z, is_Some (m !! k) <-> k ∈ offsets)
    /\ (forall o : Z, last offsets = Some o ->
        m !! o = Some (BinIO.size (wiki_file db))).
Proof.
  intros Hpos Hlines Hne Hall.
  rewrite (load_offset_map_offsets db offsets Hpos Hlines).
  destruct offsets as [|o rest]; [done |].
  apply Forall_cons in Hall as [Ho Hrest].
  cbn [offsets_scan]. change (-1 =? -1) with true. cbv iota.
  rewrite Z.eqb_refl. cbn [negb].
  destruct (offsets_scan_keys rest ∅ o Ho Hrest) as [Hlast Hkeys].
  destruct (offsets_scan rest ∅ o) as [m p]. cbn [fst snd] in *.
  eexists; split; [reflexivity |]. split.
  - intros k. rewrite elem_of_cons.
    specialize (Hkeys k). rewrite lookup_empty in Hkeys.
    destruct (decide (k = p)) as [-> | Hk].
    + rewrite lookup_insert_eq. split; [| by eexists].
      intros _. destruct Hkeys as [Hkeys _].
      destruct Hkeys as [[? ?] | [? | ?]]; try done; auto.
    + rewrite lookup_insert_ne by done. split.
      * intros Hin. destruct Hkeys as [Hkeys _].
        destruct Hkeys as [[? ?] | [? | ?]]; try done; auto.
      * intros Hin. destruct Hkeys as [_ Hkeys].
        destruct Hkeys as [? | ?]; try done. destruct Hin; auto.
  - intros o' Ho'. rewrite last_cons in Ho'.
    assert (o' = p) as ->.
    { rewrite Hlast. destruct (last rest); by injection Ho'. }
    by rewrite lookup_insert_eq.
Qed.

Lemma load_offset_map_keys_witness :
  exists m : gmap Z Z,
    fst (load_offset_map
           (mkWikiDb (open_text ("50:3:Ant" ++ nl ++ "0:1:Dog" ++ nl
                                 ++ "50:4:Bee" ++ nl))
                     (open_bin (replicate 80 x00)) ∅)) = OK m
    /\ (forall k : Z, is_Some (m !! k) <-> k ∈ [50; 0; 50])
    /\ (forall o : Z, last [50; 0; 50] = Some o -> m !! o = Some 80).
Proof.
  apply (load_offset_map_keys
           (mkWikiDb (open_text ("50:3:Ant" ++ nl ++ "0:1:Dog" ++ nl
                                 ++ "50:4:Bee" ++ nl))
                     (open_bin (replicate 80 x00)) ∅) [50; 0; 50]).
  - simpl. lia.
  - repeat constructor.
  - discriminate.
  - repeat constructor; lia.
Defined.

Lemma load_offset_map_loop_error (pre post : list string) (line : string)
    (offsets : list Z) (e : exn) (m : gmap Z Z) (previous : Z) (db : WikiDb) :
  Forall2 line_has_offset pre offsets ->
  PyStr.int (fst (split_index_parts line)) = Raise e ->
  fst (load_offset_map_loop (pre ++ line :: post) m previous db) = Raise e.
Proof.
  intros Hpre Hline. revert m previous db.
  induction Hpre as [|x o pre offsets Hx _ IH]; intros m previous db.
  - cbn [app]. by rewrite load_offset_map_loop_step, Hline.
  - cbn [app]. rewrite load_offset_map_loop_step.
    unfold line_has_offset in Hx. rewrite Hx.
    destruct (negb (o =? (if previous =? -1 then o else previous))); apply IH.
Qed.

(** X11: [__load_offset_map] reads the first field of every line as an
    integer; the first line where this fails makes it fail with
    [ValueError], and so does the construction of the database. A blank line
    is such a line. *)
Theorem load_offset_map_fails_on_bad_offset (wiki : list byte) (index : string)
    (pre post : list string) (line : string) (offsets : list Z) (e : exn) :
  file_lines index = (pre ++ line :: post)%list ->
  Forall2 line_has_offset pre offsets ->
  PyStr.int (fst (split_index_parts line)) = Raise e ->
  fst (load_offset_map (mkWikiDb (open_text index) (open_bin wiki) ∅))
  = Raise ValueError
  /\ WikiDb_init wiki index = Raise ValueError.
Proof.
  intros Hlines Hpre Hline.
  assert (fst (load_offset_map (mkWikiDb (open_text index) (open_bin wiki) ∅))
          = Raise ValueError) as Hfail.
  { unfold load_offset_map.
    unfold bind at 1. unfold index_seek0 at 1.
    unfold bind at 1. unfold index_iter at 1.
    cbn [index_file tf_lines tf_pos open_text]. rewrite drop_0, Hlines.
    set (db0 := mkWikiDb _ _ _). unfold bind at 1.
    pose proof (load_offset_map_loop_error pre post line offsets e ∅ (-1) db0
                  Hpre Hline) as Hloop.
    destruct (load_offset_map_loop (pre ++ line :: post) ∅ (-1) db0)
      as [[r | e'] db']; cbn [fst] in *; [done |].
    injection Hloop as ->. by rewrite (int_raises _ _ Hline). }
  split; [exact Hfail |].
  unfold WikiDb_init.
  destruct (load_offset_map (mkWikiDb (open_text index) (open_bin wiki) ∅))
    as [[m | e'] db']; cbn [fst] in Hfail; [done | congruence].
Qed.

Lemma load_offset_map_fails_on_bad_offset_witness :
  PyStr.int (fst (split_index_parts nl)) = Raise ValueError
  /\ WikiDb_init Demo.archive (Demo.index ++ nl) = Raise ValueError.
Proof.
  split; [vm_compute; reflexivity |].
  apply (load_offset_map_fails_on_bad_offset Demo.archive (Demo.index ++ nl)
           ["0:1:Dog" ++ nl; "0:2:Cat" ++ nl; "122:3:Ant" ++ nl] [] nl
           [0; 0; 122] ValueError).
  - vm_compute; reflexivity.
  - repeat constructor.
  - vm_compute; reflexivity.
Defined.

(** ** The database after construction *)

Lemma parse_index_line_offset (line : string) (entry : IndexEntry) :
  parse_index_line line = OK entry -> line_has_offset line (file_offset entry).
Proof.
  unfold parse_index_line, line_has_offset.
  destruct (split_index_parts line) as [O tail]. cbn [fst].
  destruct (split_index_parts tail) as [I third].
  destruct (PyStr.int O) as [o |]; [| done]. cbn [exc_bind].
  destruct (PyStr.int I) as [i |]; [| done]. cbn [exc_bind].
  by intros [= <-].
Qed.

Lemma decode_all_offsets (lines : list string) (all : list IndexEntry) :
  decode_all lines = OK all ->
  Forall2 line_has_offset lines (map file_offset all).
Proof.
  revert all; induction lines as [|line lines IH]; intros all.
  - intros [= <-]. constructor.
  - cbn [decode_all].
    destruct (parse_index_line line) as [entry |] eqn:Hline; [| done].
    cbn [exc_bind]. destruct (decode_all lines) as [rest |]; [| done].
    unfold exc_map. cbn [exc_bind]. intros [= <-]. cbn [map].
    constructor; [by apply parse_index_line_offset | by apply IH].
Qed.

(** X12: the construction of a database leaves the archive file as opened,
    with its cursor back at 0 after the size was taken, and leaves the
    cursor of the index file behind its last line. *)
Theorem WikiDb_init_files (wiki : list byte) (index : string) (self : WikiDb) :
  WikiDb_init wiki index = OK self ->
  wiki_file self = open_bin wiki
  /\ index_file self
     = mkTextFile (file_lines index) (length (file_lines index)).
Proof.
  unfold WikiDb_init. set (db := mkWikiDb _ _ _).
  destruct (load_offset_map_run db) as (n & Hn & Hlen); [simpl; lia |].
  destruct (load_offset_map db) as [[m | e] db'] eqn:Hrun; [| done].
  cbn [fst snd] in *. intros [= <-]. subst db'.
  rewrite (Hlen m eq_refl).
  cbn [advance_index wiki_file index_file tf_lines tf_pos db open_text].
  split; [done |]. f_equal. lia.
Qed.

Lemma WikiDb_init_files_witness :
  wiki_file Demo.db = open_bin Demo.archive
  /\ index_file Demo.db = mkTextFile (file_lines Demo.index) 3.
Proof.
  exact (WikiDb_init_files Demo.archive Demo.index Demo.db eq_refl).
Defined.

(** X13: when every line of the index decodes and no offset is -1, the
    construction succeeds and every entry a later search returns has its
    offset among the keys of the offset map: fetching its article does not
    fail for a missing key. *)
Theorem search_results_have_ranges (wiki : list byte) (index : string)
    (all : list IndexEntry) :
  decode_all (file_lines index) = OK all ->
  Forall (fun e => file_offset e <> -1) all ->
  exists self : WikiDb,
    WikiDb_init wiki index = OK self
    /\ forall (predicate : IndexEntry -> bool) (es : list IndexEntry)
              (entry : IndexEntry),
         fst (load_index predicate self) = OK es ->
         entry ∈ es ->
         is_Some (offset_map self !! file_offset entry).
Proof.
  intros Hall Hreal.
  pose proof (decode_all_offsets _ _ Hall) as Hoffsets.
  set (db := mkWikiDb (open_text index) (open_bin wiki) ∅).
  assert (0 <= bf_pos (wiki_file db)) as Hpos by (simpl; lia).
  pose proof (load_offset_map_offsets db (map file_offset all) Hpos Hoffsets) as Hmap.
  destruct (load_offset_map_run db Hpos) as (n & Hn & _).
  unfold WikiDb_init. fold db.
  destruct (load_offset_map db) as [[m | e] db'] eqn:Hrun; cbn [fst snd] in *;
    [| done].
  eexists; split; [reflexivity |].
  intros predicate es entry Hes Hin.
  rewrite load_index_decoded in Hes. subst db'.
  cbn [advance_index index_file tf_lines db open_text offset_map] in *.
  rewrite Hall in Hes. unfold exc_map in Hes. cbn [exc_bind] in Hes.
  injection Hes as <-.
  apply list_elem_of_In, filter_In in Hin as [Hin _].
  destruct all as [|first rest]; [done |].
  cbn [map] in *. apply Forall_cons in Hreal as [Hfirst Hrest].
  injection Hmap as ->.
  cbn [offsets_scan]. change (-1 =? -1) with true. cbv iota.
  rewrite Z.eqb_refl. cbn [negb].
  assert (Forall (fun o => o <> -1) (map file_offset rest)) as Hrest'.
  { apply Forall_forall. intros o Ho.
    apply list_elem_of_In, in_map_iff in Ho as (e & <- & He).
    rewrite Forall_forall in Hrest. by apply Hrest, list_elem_of_In. }
  destruct (offsets_scan_keys (map file_offset rest) ∅ (file_offset first)
              Hfirst Hrest') as [_ Hkeys].
  destruct (offsets_scan (map file_offset rest) ∅ (file_offset first)) as [m' p].
  cbn [fst snd] in Hkeys.
  destruct (decide (file_offset entry = p)) as [-> | Hne].
  - rewrite lookup_insert_eq. by eexists.
  - rewrite lookup_insert_ne by done.
    destruct (Hkeys (file_offset entry)) as [_ Hback].
    destruct Hback as [? | ?]; [| done | done].
    destruct Hin as [<- | Hin]; [by right; left |].
    right; right. apply list_elem_of_In, in_map_iff. by exists entry.
Qed.

Lemma search_results_have_ranges_witness :
  exists self : WikiDb,
    WikiDb_init Demo.archive Demo.index = OK self
    /\ forall (predicate : IndexEntry -> bool) (es : list IndexEntry)
              (entry : IndexEntry),
         fst (load_index predicate self) = OK es ->
         entry ∈ es ->
         is_Some (offset_map self !! file_offset entry).
Proof.
  apply (search_results_have_ranges Demo.archive Demo.index
           [mkIndexEntry 0 1 "Dog"; mkIndexEntry 0 2 "Cat";
            mkIndexEntry 122 3 "Ant"]).
  - vm_compute; reflexivity.
  - repeat constructor; cbn; lia.
Defined.

(** X14: [get_file_size] returns the number of bytes of the file and leaves
    the file, cursor included, as it found it, wherever the cursor stood. *)
Theorem get_file_size_restores (data : list byte) (pos : Z) :
  0 <= pos ->
  get_file_size (mkBinFile data pos)
  = (OK (Z.of_nat (length data)), mkBinFile data pos).
Proof. intros Hpos. by apply (get_file_size_size (mkBinFile data pos)). Qed.

Lemma get_file_size_restores_witness :
  get_file_size (mkBinFile Demo.archive 500) = (OK 187, mkBinFile Demo.archive 500).
Proof.
  exact (get_file_size_restores Demo.archive 500 ltac:(lia)).
Defined.

(** ** Articles and cursors *)

Section ArticleState.
Context `{Collaborators}.

Lemma load_chunk_run (entry : IndexEntry) (db : WikiDb) :
  load_chunk entry db
  = match offset_map db !! file_offset entry with
    | None => (Raise (KeyError (file_offset entry)), db)
    | Some end_ =>
        if file_offset entry <? 0
        then (Raise OSError,
              mkWikiDb (index_file db) (wiki_file db) (offset_map db))
        else if end_ - file_offset entry <? -1
        then (Raise ValueError,
              mkWikiDb (index_file db)
                       (mkBinFile (bf_data (wiki_file db)) (file_offset entry))
                       (offset_map db))
        else
          let raw := bytes_read (bf_data (wiki_file db)) (file_offset entry)
                                (end_ - file_offset entry) in
          (exc_bind (bz2_decompress raw) utf8_decode,
           mkWikiDb (index_file db)
                    (mkBinFile (bf_data (wiki_file db))
                               (file_offset entry + Z.of_nat (length raw)))
                    (offset_map db))
    end.
Proof.
  unfold load_chunk. unfold bind at 1. unfold offset_map_getitem at 1.
  destruct (offset_map db !! file_offset entry) as [end_ |]; [| done].
  unfold bind at 1. unfold on_wiki_file at 1. unfold BinIO.seek.
  destruct (file_offset entry <? 0); [done |].
  unfold bind at 1. unfold on_wiki_file at 1. unfold BinIO.read.
  cbn [wiki_file bf_pos bf_data index_file offset_map].
  destruct (end_ - file_offset entry <? -1); [done |].
  fold (bytes_read (bf_data (wiki_file db)) (file_offset entry)
                   (end_ - file_offset entry)).
  unfold bind, lift, ret.
  destruct (bz2_decompress _) as [data |]; [| done]. cbn [exc_bind].
  by destruct (utf8_decode data).
Qed.

Lemma load_article_state (entry : IndexEntry) (db : WikiDb) :
  snd (load_article entry db) = snd (load_chunk entry db).
Proof.
  unfold load_article. unfold bind at 1.
  destruct (load_chunk entry db) as [[chunk | e] db']; [| done].
  unfold bind, lift, ret. cbn [snd].
  destruct (ET_fromstring _) as [root |]; [| done].
  destruct (next_filter _ _) as [page |]; [| done].
  by destruct (find ["revision"; "text"] page).
Qed.

(** X15: for an entry whose range is not reversed, what [load_article]
    returns or raises depends on the entry, the bytes of the archive and the
    offset map only, not on where the cursors of the two files stand. *)
Theorem load_article_ignores_cursors (entry : IndexEntry) (db db' : WikiDb) :
  range_not_reversed db entry ->
  offset_map db = offset_map db' ->
  bf_data (wiki_file db) = bf_data (wiki_file db') ->
  fst (load_article entry db) = fst (load_article entry db').
Proof.
  intros _ Hmap Hdata. rewrite !load_article_of_chunk, !load_chunk_run.
  rewrite Hmap, Hdata.
  destruct (offset_map db' !! file_offset entry) as [end_ |]; [| done].
  destruct (file_offset entry <? 0); [done |].
  by destruct (end_ - file_offset entry <? -1).
Qed.

(** X16: for an entry whose range is not reversed, [load_article] changes
    nothing but the cursor of the archive file: the index file, the offset
    map and the bytes of the archive are as before. Loading the same entry
    again right after gives the same outcome. *)
Theorem load_article_moves_archive_cursor_only (entry : IndexEntry) (db : WikiDb) :
  range_not_reversed db entry ->
  index_file (snd (load_article entry db)) = index_file db
  /\ offset_map (snd (load_article entry db)) = offset_map db
  /\ bf_data (wiki_file (snd (load_article entry db))) = bf_data (wiki_file db)
  /\ fst (load_article entry (snd (load_article entry db)))
     = fst (load_article entry db).
Proof.
  intros _.
  assert (index_file (snd (load_article entry db)) = index_file db
          /\ offset_map (snd (load_article entry db)) = offset_map db
          /\ bf_data (wiki_file (snd (load_article entry db)))
             = bf_data (wiki_file db)) as (Hindex & Hmap & Hdata).
  { rewrite load_article_state, load_chunk_run.
    destruct (offset_map db !! file_offset entry) as [end_ |]; [| done].
    destruct (file_offset entry <? 0); [done |].
  by destruct (end_ - file_offset entry <? -1). }
  repeat split; try done.
  rewrite !load_article_of_chunk, !load_chunk_run, Hmap, Hdata.
  destruct (offset_map db !! file_offset entry) as [end_ |]; [| done].
  destruct (file_offset entry <? 0); [done |].
  by destruct (end_ - file_offset entry <? -1).
Qed.

(** X17: an entry with a negative offset that is a key of the map makes
    [load_article] fail at the seek, before anything is read. *)
Theorem load_article_negative_offset (entry : IndexEntry) (db : WikiDb) :
  is_Some (offset_map db !! file_offset entry) ->
  file_offset entry < 0 ->
  fst (load_article entry db) = Raise OSError
  /\ wiki_file (snd (load_article entry db)) = wiki_file db.
Proof.
  intros [end_ Hkey] Hneg.
  rewrite load_article_of_chunk, load_article_state, load_chunk_run, Hkey.
  destruct (Z.ltb_spec (file_offset entry) 0); [done | lia].
Qed.

(** X18: [follow_link] on a title no entry of the index matches: the search
    returns [None], and [load_article] fails on it with [AttributeError]
    before it touches the archive. *)
Theorem follow_link_unknown_title (link : string) (db : WikiDb) :
  Forall (skipped (exact_match_smart_predicate link)) (tf_lines (index_file db)) ->
  fst (follow_link link db) = Raise AttributeError
  /\ wiki_file (snd (follow_link link db)) = wiki_file db.
Proof.
  intros Hnone. unfold follow_link, bind.
  rewrite load_index_single_run.
  rewrite (load_index_single_loop_none _ _ _ Hnone).
  cbn [load_article_of]. unfold lift. done.
Qed.

(** X19: [follow_link] on a title some entry matches loads the article of
    the first such entry (its range not reversed): the outcome is that of
    [load_article] on this entry. *)
Theorem follow_link_first_match (link : string) (db : WikiDb)
    (pre post : list string) (line : string) (entry : IndexEntry) :
  tf_lines (index_file db) = (pre ++ line :: post)%list ->
  Forall (skipped (exact_match_smart_predicate link)) pre ->
  parse_index_line line = OK entry ->
  exact_match_smart_predicate link entry = true ->
  range_not_reversed db entry ->
  fst (follow_link link db) = fst (load_article entry db).
Proof.
  intros Hlines Hpre Hline Hyes _. unfold follow_link, bind.
  rewrite load_index_single_run, Hlines.
  rewrite (load_index_single_loop_found _ pre post line entry _ Hpre Hline Hyes).
  cbn [load_article_of fst].
  rewrite !load_article_of_chunk, !load_chunk_run.
  cbn [advance_index offset_map wiki_file].
  destruct (offset_map db !! file_offset entry) as [end_ |]; [| done].
  destruct (file_offset entry <? 0); [done |].
  by destruct (end_ - file_offset entry <? -1).
Qed.

End ArticleState.

Lemma demo_ranges_not_reversed (entry : IndexEntry) :
  range_not_reversed Demo.db entry.
Proof.
  intros end_.
  change (offset_map Demo.db) with ({[ 0 := 122; 122 := 187 ]} : gmap Z Z).
  destruct (decide (file_offset entry = 0)) as [-> | H0].
  { rewrite lookup_insert_eq. intros [= <-]. lia. }
  rewrite lookup_insert_ne by done.
  destruct (decide (file_offset entry = 122)) as [-> | H1].
  { rewrite lookup_singleton_eq. intros [= <-]. lia. }
  by rewrite lookup_singleton_ne.
Qed.

Lemma load_article_ignores_cursors_witness :
  offset_map Demo.db
  = offset_map (mkWikiDb (mkTextFile (file_lines Demo.index) 2)
                         (mkBinFile Demo.archive 50) (offset_map Demo.db))
  /\ fst (load_article (mkIndexEntry 122 3 "Ant") Demo.db)
     = fst (load_article (mkIndexEntry 122 3 "Ant")
              (mkWikiDb (mkTextFile (file_lines Demo.index) 2)
                        (mkBinFile Demo.archive 50) (offset_map Demo.db))).
Proof.
  split; [reflexivity |].
  exact (load_article_ignores_cursors (mkIndexEntry 122 3 "Ant") Demo.db
           (mkWikiDb (mkTextFile (file_lines Demo.index) 2)
                     (mkBinFile Demo.archive 50) (offset_map Demo.db))
           (demo_ranges_not_reversed _) eq_refl eq_refl).
Defined.

Lemma load_article_moves_archive_cursor_only_witness :
  index_file (snd (load_article (mkIndexEntry 0 2 "Cat") Demo.db))
  = index_file Demo.db
  /\ offset_map (snd (load_article (mkIndexEntry 0 2 "Cat") Demo.db))
     = offset_map Demo.db
  /\ bf_data (wiki_file (snd (load_article (mkIndexEntry 0 2 "Cat") Demo.db)))
     = bf_data (wiki_file Demo.db)
  /\ fst (load_article (mkIndexEntry 0 2 "Cat")
            (snd (load_article (mkIndexEntry 0 2 "Cat") Demo.db)))
     = fst (load_article (mkIndexEntry 0 2 "Cat") Demo.db).
Proof.
  exact (load_article_moves_archive_cursor_only (mkIndexEntry 0 2 "Cat") Demo.db
           (demo_ranges_not_reversed _)).
Defined.

Lemma load_article_negative_offset_witness :
  is_Some (({[ -5 := 10 ]} : gmap Z Z) !! (-5))
  /\ fst (load_article (mkIndexEntry (-5) 1 "Dog")
            (mkWikiDb (open_text "") (open_bin Demo.archive) {[ -5 := 10 ]}))
     = Raise OSError.
Proof.
  assert (is_Some (({[ -5 := 10 ]} : gmap Z Z) !! (-5))) as Hkey
    by (exists 10; vm_compute; reflexivity).
  split; [exact Hkey |].
  exact (proj1 (load_article_negative_offset (mkIndexEntry (-5) 1 "Dog")
                  (mkWikiDb (open_text "") (open_bin Demo.archive) {[ -5 := 10 ]})
                  Hkey ltac:(cbn; lia))).
Defined.

Lemma follow_link_unknown_title_witness :
  fst (follow_link "Bird" Demo.db) = Raise AttributeError
  /\ wiki_file (snd (follow_link "Bird" Demo.db)) = wiki_file Demo.db.
Proof.
  apply (follow_link_unknown_title "Bird" Demo.db).
  change (tf_lines (index_file Demo.db))
    with ["0:1:Dog" ++ nl; "0:2:Cat" ++ nl; "122:3:Ant" ++ nl].
  constructor; [| constructor; [| constructor; [| constructor]]].
  - exists (mkIndexEntry 0 1 "Dog"). split; vm_compute; reflexivity.
  - exists (mkIndexEntry 0 2 "Cat"). split; vm_compute; reflexivity.
  - exists (mkIndexEntry 122 3 "Ant"). split; vm_compute; reflexivity.
Defined.

Lemma follow_link_first_match_witness :
  exact_match_smart_predicate "cat" (mkIndexEntry 0 2 "Cat") = true
  /\ fst (follow_link "cat" Demo.db)
     = fst (load_article (mkIndexEntry 0 2 "Cat") Demo.db).
Proof.
  split; [reflexivity |].
  apply (follow_link_first_match "cat" Demo.db
           ["0:1:Dog" ++ nl] ["122:3:Ant" ++ nl] ("0:2:Cat" ++ nl)
           (mkIndexEntry 0 2 "Cat")).
  - vm_compute; reflexivity.
  - constructor; [| constructor].
    exists (mkIndexEntry 0 1 "Dog"). split; vm_compute; reflexivity.
  - vm_compute; reflexivity.
  - reflexivity.
  - apply demo_ranges_not_reversed.
Defined.

(** ** Tag names of links *)

Lemma free_of_append (c : ascii) (a b : string) :
  free_of c (a ++ b) = free_of c a && free_of c b.
Proof.
  induction a as [|x a IH]; [done |].
  cbn [String.append free_of]. rewrite IH. by rewrite andb_assoc.
Qed.

Lemma str_replace_removes (old : ascii) (new s : string) :
  free_of old new = true -> free_of old (str_replace old new s) = true.
Proof.
  intros Hnew. induction s as [|c s IH]; [done |].
  cbn [str_replace]. destruct (Ascii.eqb c old) eqn:E.
  - by rewrite free_of_append, Hnew, IH.
  - cbn [free_of]. by rewrite E, IH.
Qed.

Lemma str_replace_keeps_free (c old : ascii) (new s : string) :
  free_of c new = true -> free_of c s = true ->
  free_of c (str_replace old new s) = true.
Proof.
  intros Hnew. induction s as [|x s IH]; [done |].
  cbn [free_of str_replace]. intros [Hx Hs]%andb_true_iff.
  destruct (Ascii.eqb x old).
  - by rewrite free_of_append, Hnew, IH.
  - cbn [free_of]. by rewrite Hx, IH.
Qed.

Lemma str_replace_absent (old : ascii) (new s : string) :
  free_of old s = true -> str_replace old new s = s.
Proof.
  induction s as [|x s IH]; [done |].
  cbn [free_of str_replace]. intros [Hx Hs]%andb_true_iff.
  apply negb_true_iff in Hx. by rewrite Hx, IH.
Qed.

(** X20: the tag name [__handle_wikilink] derives from a title holds neither
    a space nor a double quote, and is the title itself when the title has
    neither. Two different titles can get the same tag name. *)
Theorem linktagname_spec :
  (forall title : string,
     free_of space (linktagname title) = true
     /\ free_of quote (linktagname title) = true
     /\ (free_of space title = true -> free_of quote title = true ->
         linktagname title = title))
  /\ linktagname "Ice cream" = "Ice#space#cream"
  /\ linktagname "Ice#space#cream" = "Ice#space#cream".
Proof.
  split; [| split; reflexivity].
  intros title. unfold linktagname. split; [| split].
  - apply str_replace_keeps_free; [reflexivity |].
    by apply str_replace_removes.
  - by apply str_replace_removes.
  - intros Hspace Hquote.
    by rewrite (str_replace_absent space _ _ Hspace), (str_replace_absent quote).
Qed.

Lemma linktagname_spec_witness :
  free_of space "C++" = true /\ free_of quote "C++" = true
  /\ linktagname "C++" = "C++".
Proof.
  split; [reflexivity |]. split; [reflexivity |].
  exact (proj2 (proj2 (proj1 linktagname_spec "C++")) eq_refl eq_refl).
Defined.

(** ** More on the codec, the search and the ranges *)

(** X21: on a line with two separators or more, cut as [O:I:rest] at its
    first two separators, [parse_index_line] succeeds exactly when [int]
    accepts both [O] and [I], and fails with [ValueError] exactly when it
    refuses one of them; [rest] plays no part in this. *)
Theorem parse_index_line_fails_iff (O I rest : string) :
  count_separators O = 0%nat -> count_separators I = 0%nat ->
  ((exists entry, parse_index_line (O ++ ":" ++ I ++ ":" ++ rest) = OK entry)
   <-> (exists o i, PyStr.int O = OK o /\ PyStr.int I = OK i))
  /\ (parse_index_line (O ++ ":" ++ I ++ ":" ++ rest) = Raise ValueError
      <-> (PyStr.int O = Raise ValueError \/ PyStr.int I = Raise ValueError)).
Proof.
  intros HO HI. rewrite (parse_index_line_fields O I rest HO HI).
  destruct (PyStr.int O) as [o | e1] eqn:EO; cbn [exc_bind].
  - destruct (PyStr.int I) as [i | e2] eqn:EI; cbn [exc_bind].
    + split; split.
      * intros _. by exists o, i.
      * intros _. by eexists.
      * done.
      * intros [? | ?]; done.
    + apply int_raises in EI as ->. split; split.
      * intros [? ?]; done.
      * intros (? & ? & _ & ?); done.
      * auto.
      * done.
  - apply int_raises in EO as ->. split; split.
    + intros [? ?]; done.
    + intros (? & ? & ? & _); done.
    + auto.
    + done.
Qed.

Lemma parse_index_line_fails_iff_witness :
  count_separators " 1_0 " = 0%nat /\ count_separators "+2" = 0%nat
  /\ parse_index_line (" 1_0 " ++ ":" ++ "+2" ++ ":" ++ "Tea" ++ nl)
     = OK (mkIndexEntry 10 2 "Tea")
  /\ (exists entry,
        parse_index_line (" 1_0 " ++ ":" ++ "+2" ++ ":" ++ "Tea" ++ nl)
        = OK entry).
Proof.
  split; [reflexivity |]. split; [reflexivity |]. split; [reflexivity |].
  apply (proj1 (parse_index_line_fails_iff " 1_0 " "+2" ("Tea" ++ nl)
                  eq_refl eq_refl)).
  exists 10, 2. split; reflexivity.
Defined.

(** X22: searching with the substring predicate of the empty text returns
    every entry of the index, in file order. *)
Theorem load_index_empty_needle (db : WikiDb) :
  fst (load_index (contains_substr_predicate "") db)
  = decode_all (tf_lines (index_file db)).
Proof.
  rewrite load_index_decoded.
  destruct (decode_all (tf_lines (index_file db))) as [all |]; [| done].
  unfold exc_map. cbn [exc_bind]. f_equal.
  induction all as [|entry all IH]; [done |].
  cbn [List.filter].
  assert (contains_substr_predicate "" entry = true) as ->.
  { apply str_contains_infix. by exists "", (article_name entry). }
  by rewrite IH.
Qed.

Lemma ranges_increasing (previous total : Z) (offsets : list Z) (m : gmap Z Z) :
  StronglySorted Z.lt (previous :: offsets) ->
  default previous (last offsets) < total ->
  (forall k v : Z, m !! k = Some v -> k < v) ->
  forall k v : Z, ranges previous offsets total m !! k = Some v -> k < v.
Proof.
  revert previous m. induction offsets as [|o offsets IH];
    intros previous m Hsorted Hlast Hm k v.
  - cbn [ranges]. cbn [last default] in Hlast.
    destruct (decide (k = previous)) as [-> | Hk].
    + rewrite lookup_insert_eq. intros [= <-]. done.
    + rewrite lookup_insert_ne by done. apply Hm.
  - cbn [ranges]. apply StronglySorted_inv in Hsorted as [Hsorted Hall].
    apply IH; [done | |].
    + rewrite last_cons in Hlast. by destruct (last offsets).
    + intros k' v'. destruct (decide (k' = previous)) as [-> | Hk].
      * rewrite lookup_insert_eq. intros [= <-]. by apply Forall_inv in Hall.
      * rewrite lookup_insert_ne by done. apply Hm.
Qed.

(** X23: when the offsets of the index are non-negative and strictly
    increasing from group to group, and the last one lies before the end of
    the archive, every range of the offset map ends after its start: no
    chunk is empty or reversed. *)
Theorem load_offset_map_ranges_increase (db : WikiDb) (groups : list (Z * nat)) :
  0 <= bf_pos (wiki_file db) ->
  Forall2 line_has_offset (tf_lines (index_file db)) (repeated_offsets groups) ->
  StronglySorted Z.lt (map fst groups) ->
  Forall (fun o => 0 <= o) (map fst groups) ->
  (forall o, last (map fst groups) = Some o -> o < BinIO.size (wiki_file db)) ->
  exists m : gmap Z Z,
    fst (load_offset_map db) = OK m
    /\ forall k v : Z, m !! k = Some v -> k < v.
Proof.
  intros Hpos Hlines Hsorted Hnonneg Hlast.
  rewrite (load_offset_map_groups db groups Hpos Hlines).
  eexists; split; [reflexivity |].
  destruct groups as [|[o0 n0] groups].
  - cbn [repeated_offsets flat_map offsets_scan]. intros k v.
    destruct (decide (k = -1)) as [-> | Hk].
    + rewrite lookup_insert_eq. intros [= <-]. unfold BinIO.size. lia.
    + by rewrite lookup_insert_ne.
  - cbn [map fst] in *. cbn [repeated_offsets flat_map fst snd].
    assert (Forall (fun o => o <> -1) (o0 :: map fst groups)) as Hne.
    { eapply Forall_impl; [exact Hnonneg |]. cbn beta. intros; lia. }
    rewrite offsets_scan_first_group by (by apply Forall_inv in Hne).
    pose proof (strictly_sorted_NoDup _ Hsorted) as Hnd.
    change (flat_map _ groups) with (repeated_offsets groups).
    rewrite (offsets_scan_groups groups o0 _ ∅ Hnd Hne).
    apply ranges_increasing; [done | | done].
    rewrite last_cons in Hlast.
    destruct (last (map fst groups)) as [o |]; by apply Hlast.
Qed.

Lemma load_offset_map_ranges_increase_witness :
  exists m : gmap Z Z,
    fst (load_offset_map
           (mkWikiDb (open_text Demo.index) (open_bin Demo.archive) ∅)) = OK m
    /\ forall k v : Z, m !! k = Some v -> k < v.
Proof.
  apply (load_offset_map_ranges_increase
           (mkWikiDb (open_text Demo.index) (open_bin Demo.archive) ∅)
           [(0, 1%nat); (122, 0%nat)]).
  - simpl. lia.
  - repeat constructor.
  - simpl. repeat constructor; lia.
  - simpl. repeat constructor; lia.
  - intros o [= <-]. vm_compute. reflexivity.
Defined.
